(** * Block production core of the op-node: op-node/rollup/derive/engine_update.go

    A shallow embedding of the payload sanity check, the forkchoice error
    classification of [startPayload] and [insertPayload], the builder race of
    [getPayloadWithBuilderPayload] and the confirm step [confirmPayload],
    and of the builder API client of package [sources] that fetches the
    builder's payload and converts it to an execution payload envelope.
    Go panics (index out of range, nil pointer dereference) are explicit
    [Panic] outcomes; collaborators (engine, conductor, builder) are oracles
    that may depend on the history of the calls made to them. *)

From Stdlib Require Import ZArith List String Bool Lia.
Import ListNotations.
Open Scope string_scope.

(** ** Data model *)

(** [eth.Data]: an opaque byte string. *)
Definition Data := list Byte.byte.

(** [types.DepositTxType] = 0x7E. *)
Definition DepositTxType : Byte.byte := Byte.x7e.

Definition byteZ (b : Byte.byte) : Z := Z.of_nat (Byte.to_nat b).

(** Go [error] values as they are built in this file: [errors.New],
    [fmt.Errorf] without and with a wrapped cause, and [eth.InputError]
    (an engine error tagged with a JSON-RPC code). *)
Inductive error : Type :=
| ErrorNew (msg : string)
| Errorf (format : string) (args : list Z)
| Wrapf (format : string) (args : list Z) (cause : error)
| InputError (Code : Z) (Inner : error).

(** [eth.InvalidForkchoiceState], [eth.InvalidPayloadAttributes]. *)
Definition InvalidForkchoiceState : Z := -38002.
Definition InvalidPayloadAttributes : Z := -38003.

(** [errors.As(err, &inputErr)]: the first [InputError] on the unwrap chain. *)
Fixpoint asInputError (e : error) : option (Z * error) :=
  match e with
  | InputError code inner => Some (code, inner)
  | Wrapf _ _ cause => asInputError cause
  | _ => None
  end.

(** The result of a Go computation: it returns, or it panics. *)
Inductive outcome (A : Type) : Type :=
| Ret (a : A)
| Panic (why : string).
Arguments Ret {A} a.
Arguments Panic {A} why.

Record ExecutionPayload := mkExecutionPayload {
  ParentHash : Z;
  BlockHash : Z;
  BlockNumber : Z;
  Transactions : list Data
}.

(** [eth.ExecutionPayloadEnvelope]; the Go field [ExecutionPayload] is
    [EnvExecutionPayload] here, [ParentBeaconBlockRoot] is a [*common.Hash]. *)
Record ExecutionPayloadEnvelope := mkEnvelope {
  EnvExecutionPayload : ExecutionPayload;
  ParentBeaconBlockRoot : option Z
}.

(** ** Payload Validator *)

(** [isDepositTx]: [(bool, error)], an error on an empty transaction. *)
Definition isDepositTx (opaqueTx : Data) : bool + error :=
  match opaqueTx with
  | [] => inr (ErrorNew "empty transaction")
  | b :: _ => inl (Byte.eqb b DepositTxType)
  end.

(** The [for i, tx := range txns] loop of [lastDeposit]; [i] is the index of
    the head of [txns], [last] the variable [lastDeposit]. *)
Fixpoint lastDeposit_loop (txns : list Data) (i last : nat) : nat + error :=
  match txns with
  | [] => inl last
  | tx :: rest =>
      match isDepositTx tx with
      | inr _ => inr (Errorf "invalid transaction at idx %d" [Z.of_nat i])
      | inl true => lastDeposit_loop rest (S i) i
      | inl false => inl last
      end
  end.

Definition lastDeposit (txns : list Data) : nat + error :=
  lastDeposit_loop txns 0 0.

(** The loop [for i := lastDeposit + 1; i < len(txs); i++] of
    [sanityCheckPayload], run over [txs[lastDeposit+1:]]; [i] is the index of
    the head of [rest]. *)
Fixpoint noDepositAfter (rest : list Data) (i last : nat) : option error :=
  match rest with
  | [] => None
  | tx :: rest' =>
      match isDepositTx tx with
      | inr err =>
          Some (Wrapf "failed to decode transaction idx %d: %w" [Z.of_nat i] err)
      | inl true =>
          Some (Errorf "deposit tx (%d) after other tx in l2 block with prev deposit at idx %d"
                  [Z.of_nat i; Z.of_nat last])
      | inl false => noDepositAfter rest' (S i) last
      end
  end.

(** [sanityCheckPayload]: [None] is a nil error. [payload.Transactions[0][0]]
    panics when the first transaction is empty. *)
Definition sanityCheckPayload (payload : ExecutionPayload) : outcome (option error) :=
  let txs := Transactions payload in
  match txs with
  | [] => Ret (Some (ErrorNew "no transactions in returned payload"))
  | tx0 :: _ =>
      match tx0 with
      | [] => Panic "runtime error: index out of range [0] with length 0"
      | b :: _ =>
          if negb (Byte.eqb b DepositTxType)
          then Ret (Some (Errorf "first transaction was not deposit tx. Got %v" [byteZ b]))
          else
            match lastDeposit txs with
            | inr err => Ret (Some (Wrapf "failed to find last deposit: %w" [] err))
            | inl ld => Ret (noDepositAfter (skipn (S ld) txs) (S ld) ld)
            end
      end
  end.

(** Reading of the spec's ordering rule, for comparison with the code: a
    transaction is privileged when its type byte is [DepositTxType];
    [depositsPrefix] holds when no privileged transaction follows a
    non-privileged one (the privileged ones form a possibly-empty prefix). *)
Definition isPrivileged (tx : Data) : bool :=
  match tx with
  | [] => false
  | b :: _ => Byte.eqb b DepositTxType
  end.

Fixpoint depositsPrefix (txs : list Data) : bool :=
  match txs with
  | [] => true
  | tx :: rest =>
      if isPrivileged tx then depositsPrefix rest
      else forallb (fun t => negb (isPrivileged t)) rest
  end.

Definition nonEmptyTx (tx : Data) : bool :=
  match tx with [] => false | _ => true end.

(** What the validator accepts: a non-empty list of non-empty transactions,
    the first privileged, no privileged one after a non-privileged one. *)
Definition validTransactions (txs : list Data) : bool :=
  match txs with
  | [] => false
  | tx0 :: _ => isPrivileged tx0 && depositsPrefix txs && forallb nonEmptyTx txs
  end.

Definition payloadWith (txs : list Data) : ExecutionPayload :=
  mkExecutionPayload 0 0 0 txs.

Example sanity_DDNN :
  sanityCheckPayload (payloadWith [[Byte.x7e]; [Byte.x7e]; [Byte.x02]; [Byte.x02]]) = Ret None.
Proof. reflexivity. Qed.

Example sanity_DND :
  exists e, sanityCheckPayload (payloadWith [[Byte.x7e]; [Byte.x02]; [Byte.x7e]]) = Ret (Some e).
Proof. eexists. reflexivity. Qed.

(** ** Engine, builder and conductor data *)

Record ForkchoiceState := mkForkchoiceState {
  HeadBlockHash : Z;
  SafeBlockHash : Z;
  FinalizedBlockHash : Z
}.

Record PayloadAttributes := mkPayloadAttributes {
  Timestamp : Z;
  NoTxPool : bool
}.

(** [eth.PayloadID] is 8 bytes; the zero value [eth.PayloadID{}] is 0. *)
Definition PayloadID := Z.

Record PayloadInfo := mkPayloadInfo {
  ID : PayloadID;
  InfoTimestamp : Z
}.

Record L2BlockRef := mkL2BlockRef {
  RefHash : Z;
  RefNumber : Z
}.

(** [eth.ExecutePayloadStatus] (a Go string type: [ExecutionOther] stands for
    any string other than the named constants). *)
Inductive ExecutePayloadStatus :=
| ExecutionValid
| ExecutionInvalid
| ExecutionSyncing
| ExecutionAccepted
| ExecutionInvalidBlockHash
| ExecutionInvalidTerminalBlock
| ExecutionOther (s : string).

Definition isExecutionValid (s : ExecutePayloadStatus) : bool :=
  match s with ExecutionValid => true | _ => false end.

Record PayloadStatusV1 := mkPayloadStatus {
  Status : ExecutePayloadStatus;
  LatestValidHash : option Z
}.

Record ForkchoiceUpdatedResult := mkForkchoiceUpdatedResult {
  PayloadStatus : PayloadStatusV1;
  FcPayloadID : option PayloadID
}.

Inductive BlockInsertionErrType :=
| BlockInsertOK
| BlockInsertTemporaryErr
| BlockInsertPrestateErr
| BlockInsertPayloadErr.

Definition statusName (s : ExecutePayloadStatus) : string :=
  match s with
  | ExecutionValid => "VALID"
  | ExecutionInvalid => "INVALID"
  | ExecutionSyncing => "SYNCING"
  | ExecutionAccepted => "ACCEPTED"
  | ExecutionInvalidBlockHash => "INVALID_BLOCK_HASH"
  | ExecutionInvalidTerminalBlock => "INVALID_TERMINAL_BLOCK"
  | ExecutionOther s => s
  end.

(** Modelled from the spec: [eth.ForkchoiceUpdateErr] (op-service/eth, not
    under src/). The code calls it on a non-valid forkchoice status only;
    per the spec every non-OK result carries a human-readable cause. *)
Definition ForkchoiceUpdateErr (st : PayloadStatusV1) : error :=
  ErrorNew ("forkchoice update not valid, status " ++ statusName (Status st)).

(** Modelled from the spec: [eth.NewPayloadErr] (op-service/eth, not under
    src/), called on a non-valid new-payload status; it carries a cause. *)
Definition NewPayloadErr (payload : ExecutionPayload) (st : PayloadStatusV1) : error :=
  Errorf ("new payload not valid, status " ++ statusName (Status st)) [BlockHash payload].

(** ** Collaborators and the state they share *)

(** Calls made to the conductor, the engine and the builder, newest first. *)
Inductive event :=
| EvCommitUnsafePayload (env : ExecutionPayloadEnvelope)
| EvForkchoiceUpdate (fc : ForkchoiceState) (attrs : option PayloadAttributes)
| EvNewPayload (payload : ExecutionPayload) (beaconRoot : option Z)
| EvGetPayload (info : PayloadInfo)
| EvBuilderGetPayload (ref : L2BlockRef).

Definition isEngineCall (e : event) : bool :=
  match e with
  | EvForkchoiceUpdate _ _ | EvNewPayload _ _ | EvGetPayload _ => true
  | _ => false
  end.

(** Modelled from the spec: the async gossiper (op-node/rollup/async, not
    under src/) is a single-slot cache, last write wins: [Gossip] sets it,
    [Clear] empties it, [Get] reads it. *)
Record world := mkWorld {
  gossip : option ExecutionPayloadEnvelope;
  trace : list event
}.

(** The answers of the collaborators ([ExecEngine], [BuilderClient],
    [conductor.SequencerConductor]), as functions of the calls made so far
    and of the arguments. A Go pointer result is an [option]. *)
Record Collab := mkCollab {
  CommitUnsafePayload : list event -> ExecutionPayloadEnvelope -> option error;
  ForkchoiceUpdate : list event -> ForkchoiceState -> option PayloadAttributes ->
                     ForkchoiceUpdatedResult + error;
  NewPayload : list event -> ExecutionPayload -> option Z -> PayloadStatusV1 + error;
  GetPayload : list event -> PayloadInfo -> option ExecutionPayloadEnvelope * option error;
  BuilderEnabled : bool;
  BuilderGetPayload : list event -> L2BlockRef -> (ExecutionPayloadEnvelope * Z) + error
}.

(** ** A state monad with Go panics *)

Definition M (A : Type) := world -> outcome (A * world).

Definition ret {A} (a : A) : M A := fun w => Ret (a, w).

Definition bind {A B} (m : M A) (k : A -> M B) : M B :=
  fun w => match m w with
           | Ret (a, w') => k a w'
           | Panic why => Panic why
           end.

Notation "x <- m ;; k" := (bind m (fun x => k))
  (at level 61, m at next level, right associativity).

Definition panicM {A} (why : string) : M A := fun _ => Panic why.

Definition liftOutcome {A} (o : outcome A) : M A :=
  fun w => match o with Ret a => Ret (a, w) | Panic why => Panic why end.

(** A collaborator call: answered from the history, then recorded. *)
Definition call {A} (ev : event) (answer : list event -> A) : M A :=
  fun w => Ret (answer (trace w), mkWorld (gossip w) (ev :: trace w)).

Definition agossipGossip (env : ExecutionPayloadEnvelope) : M unit :=
  fun w => Ret (tt, mkWorld (Some env) (trace w)).

Definition agossipClear : M unit :=
  fun w => Ret (tt, mkWorld None (trace w)).

Definition agossipGet : M (option ExecutionPayloadEnvelope) :=
  fun w => Ret (gossip w, w).

Section Orchestration.

Variable c : Collab.

Definition commitUnsafePayload (env : ExecutionPayloadEnvelope) : M (option error) :=
  call (EvCommitUnsafePayload env) (fun tr => CommitUnsafePayload c tr env).

Definition forkchoiceUpdate (fc : ForkchoiceState) (attrs : option PayloadAttributes)
  : M (ForkchoiceUpdatedResult + error) :=
  call (EvForkchoiceUpdate fc attrs) (fun tr => ForkchoiceUpdate c tr fc attrs).

Definition newPayload (payload : ExecutionPayload) (root : option Z) : M (PayloadStatusV1 + error) :=
  call (EvNewPayload payload root) (fun tr => NewPayload c tr payload root).

Definition getPayload (info : PayloadInfo) : M (option ExecutionPayloadEnvelope * option error) :=
  call (EvGetPayload info) (fun tr => GetPayload c tr info).

Definition builderGetPayload (ref : L2BlockRef) : M ((ExecutionPayloadEnvelope * Z) + error) :=
  call (EvBuilderGetPayload ref) (fun tr => BuilderGetPayload c tr ref).

(** [startPayload]: returns [(id, errType, err)]. *)
Definition startPayload (fc : ForkchoiceState) (attrs : PayloadAttributes)
  : M (PayloadID * BlockInsertionErrType * option error) :=
  r <- forkchoiceUpdate fc (Some attrs) ;;
  match r with
  | inr err =>
      match asInputError err with
      | Some (code, inner) =>
          if Z.eqb code InvalidForkchoiceState then
            ret (0%Z, BlockInsertPrestateErr,
                 Some (Wrapf "pre-block-creation forkchoice update was inconsistent with engine, need reset to resolve: %w" [] inner))
          else if Z.eqb code InvalidPayloadAttributes then
            ret (0%Z, BlockInsertPayloadErr,
                 Some (Wrapf "payload attributes are not valid, cannot build block: %w" [] inner))
          else
            ret (0%Z, BlockInsertPrestateErr,
                 Some (Wrapf "unexpected error code in forkchoice-updated response: %w" [] err))
      | None =>
          ret (0%Z, BlockInsertTemporaryErr,
               Some (Wrapf "failed to create new block via forkchoice: %w" [] err))
      end
  | inl fcRes =>
      match Status (PayloadStatus fcRes) with
      | ExecutionInvalid | ExecutionInvalidBlockHash =>
          ret (0%Z, BlockInsertPayloadErr, Some (ForkchoiceUpdateErr (PayloadStatus fcRes)))
      | ExecutionValid =>
          match FcPayloadID fcRes with
          | None => ret (0%Z, BlockInsertTemporaryErr,
                         Some (ErrorNew "nil id in forkchoice result when expecting a valid ID"))
          | Some id => ret (id, BlockInsertOK, None)
          end
      | _ => ret (0%Z, BlockInsertTemporaryErr, Some (ForkchoiceUpdateErr (PayloadStatus fcRes)))
      end
  end.

(** [fc.HeadBlockHash = payload.BlockHash; if updateSafe { fc.SafeBlockHash = ... }]
    on the local copy [fc]. *)
Definition postBuildForkchoice (fc : ForkchoiceState) (payload : ExecutionPayload)
  (updateSafe : bool) : ForkchoiceState :=
  mkForkchoiceState (BlockHash payload)
    (if updateSafe then BlockHash payload else SafeBlockHash fc)
    (FinalizedBlockHash fc).

(** [insertPayload]; a nil [envelope] pointer panics at [envelope.ExecutionPayload]. *)
Definition insertPayload (fc : ForkchoiceState) (updateSafe : bool)
  (envelope : option ExecutionPayloadEnvelope)
  : M (BlockInsertionErrType * option error) :=
  match envelope with
  | None => panicM "invalid memory address or nil pointer dereference"
  | Some envelope =>
  let payload := EnvExecutionPayload envelope in
  sc <- liftOutcome (sanityCheckPayload payload) ;;
  match sc with
  | Some err => ret (BlockInsertPayloadErr, Some err)
  | None =>
  cm <- commitUnsafePayload envelope ;;
  match cm with
  | Some err =>
      ret (BlockInsertTemporaryErr,
           Some (Wrapf "failed to commit unsafe payload to conductor: %w" [] err))
  | None =>
  _ <- agossipGossip envelope ;;
  np <- newPayload payload (ParentBeaconBlockRoot envelope) ;;
  match np with
  | inr err =>
      ret (BlockInsertTemporaryErr, Some (Wrapf "failed to insert execution payload: %w" [] err))
  | inl status =>
      match Status status with
      | ExecutionInvalid | ExecutionInvalidBlockHash =>
          _ <- agossipClear ;;
          ret (BlockInsertPayloadErr, Some (NewPayloadErr payload status))
      | ExecutionValid =>
          fr <- forkchoiceUpdate (postBuildForkchoice fc payload updateSafe) None ;;
          match fr with
          | inr err =>
              match asInputError err with
              | Some (code, inner) =>
                  if Z.eqb code InvalidForkchoiceState then
                    _ <- agossipClear ;;
                    ret (BlockInsertPayloadErr,
                         Some (Wrapf "post-block-creation forkchoice update was inconsistent with engine, need reset to resolve: %w" [] inner))
                  else
                    _ <- agossipClear ;;
                    ret (BlockInsertPrestateErr,
                         Some (Wrapf "unexpected error code in forkchoice-updated response: %w" [] err))
              | None =>
                  ret (BlockInsertTemporaryErr,
                       Some (Wrapf "failed to make the new L2 block canonical via forkchoice: %w" [] err))
              end
          | inl fcRes =>
              _ <- agossipClear ;;
              if negb (isExecutionValid (Status (PayloadStatus fcRes)))
              then ret (BlockInsertPayloadErr, Some (ForkchoiceUpdateErr (PayloadStatus fcRes)))
              else ret (BlockInsertOK, None)
          end
      | _ => ret (BlockInsertTemporaryErr, Some (NewPayloadErr payload status))
      end
  end
  end
  end
  end.

(** [getPayloadWithBuilderPayload]. The builder goroutine and the [select]
    are resolved by a scheduler: [builderWins] says whether the [select]
    takes the channel case. The channel is written only when the builder
    call succeeded (on failure it calls [cancel], which makes [Done] ready),
    so the channel case needs a builder success; otherwise [Done] is taken.
    When both are ready Go picks either, so any [builderWins] is possible. *)
Definition getPayloadWithBuilderPayload (payloadInfo : PayloadInfo) (l2head : L2BlockRef)
  (builderWins : bool)
  : M (option ExecutionPayloadEnvelope * option ExecutionPayloadEnvelope * option Z * option error) :=
  if negb (BuilderEnabled c) then
    r <- getPayload payloadInfo ;;
    let (payload, err) := r in
    ret (payload, None, None, err)
  else
    b <- builderGetPayload l2head ;;
    r <- getPayload payloadInfo ;;
    let (envelope, err) := r in
    match b with
    | inl (benv, profit) =>
        if builderWins then
          match envelope with
          | None => panicM "invalid memory address or nil pointer dereference"
          | Some eenv =>
              let benv' := mkEnvelope (EnvExecutionPayload benv) (ParentBeaconBlockRoot eenv) in
              ret (envelope, Some benv', Some profit, err)
          end
        else ret (envelope, None, None, err)
    | inr _ => ret (envelope, None, None, err)
    end.

(** [confirmPayload]: returns [(out, errTyp, err)]. *)
Definition confirmPayload (fc : ForkchoiceState) (payloadInfo : PayloadInfo)
  (updateSafe : bool) (l2head : L2BlockRef) (builderWins : bool)
  : M (option ExecutionPayloadEnvelope * BlockInsertionErrType * option error) :=
  cached <- agossipGet ;;
  g <- match cached with
       | Some env => ret (Some env, None, None)
       | None =>
           r <- getPayloadWithBuilderPayload payloadInfo l2head builderWins ;;
           let '(e, b, _, err) := r in ret (e, b, err)
       end ;;
  let '(engineEnvelope, builderEnvelope, err) := g in
  match err with
  | Some err =>
      ret (None, BlockInsertTemporaryErr, Some (Wrapf "failed to get execution payload: %w" [] err))
  | None =>
      let fallback :=
        r <- insertPayload fc updateSafe engineEnvelope ;;
        ret (engineEnvelope, fst r, snd r) in
      match builderEnvelope with
      | Some benv =>
          r <- insertPayload fc updateSafe (Some benv) ;;
          match snd r with
          | None => ret (Some benv, fst r, None)
          | Some _ => fallback
          end
      | None => fallback
      end
  end.

End Orchestration.

(** ** Builder API client (package sources) *)

(** [consensusspec.DataVersion], printed by [%v] through its [String]. *)
Inductive DataVersion : Type :=
| DataVersionUnknown
| DataVersionPhase0
| DataVersionAltair
| DataVersionBellatrix
| DataVersionCapella
| DataVersionDeneb
| DataVersionElectra.

Definition DataVersion_String (v : DataVersion) : string :=
  match v with
  | DataVersionUnknown => "unknown"
  | DataVersionPhase0 => "phase0"
  | DataVersionAltair => "altair"
  | DataVersionBellatrix => "bellatrix"
  | DataVersionCapella => "capella"
  | DataVersionDeneb => "deneb"
  | DataVersionElectra => "electra"
  end.

Definition isDeneb (v : DataVersion) : bool :=
  match v with DataVersionDeneb => true | _ => false end.

(** [capella.Withdrawal]; hashes, addresses and fixed-size byte arrays are
    numbers throughout. *)
Record CapellaWithdrawal := mkCapellaWithdrawal {
  WithdrawalIndex : Z;
  ValidatorIndex : Z;
  WithdrawalAddress : Z;
  WithdrawalAmount : Z
}.

(** [deneb.ExecutionPayload] of the builder specification; pointer fields
    ([BaseFeePerGas], the entries of [Withdrawals]) may be nil. *)
Record DenebExecutionPayload := mkDenebExecutionPayload {
  DParentHash : Z;
  DFeeRecipient : Z;
  DStateRoot : Z;
  DReceiptsRoot : Z;
  DLogsBloom : Z;
  DPrevRandao : Z;
  DBlockNumber : Z;
  DGasLimit : Z;
  DGasUsed : Z;
  DTimestamp : Z;
  DExtraData : Data;
  DBaseFeePerGas : option Z;
  DBlockHash : Z;
  DTransactions : list Data;
  DWithdrawals : list (option CapellaWithdrawal);
  DBlobGasUsed : Z;
  DExcessBlobGas : Z
}.

(** [v1.BidTrace]: only the bid value is read. *)
Record BidTrace := mkBidTrace { BidValue : Z }.

(** [deneb.SubmitBlockRequest]: [Message] and [ExecutionPayload] are pointers. *)
Record DenebSubmitBlockRequest := mkDenebSubmitBlockRequest {
  Message : option BidTrace;
  DenebExecutionPayload_ : option DenebExecutionPayload
}.

(** [builderSpec.VersionedSubmitBlockRequest]: the version and the Deneb
    variant (a pointer). *)
Record VersionedSubmitBlockRequest := mkVersionedSubmitBlockRequest {
  Version : DataVersion;
  Deneb : option DenebSubmitBlockRequest
}.

(** [types.Withdrawal]. *)
Record Withdrawal := mkWithdrawal {
  WIndex : Z;
  WValidator : Z;
  WAddress : Z;
  WAmount : Z
}.

(** The full [eth.ExecutionPayload] and [eth.ExecutionPayloadEnvelope], as
    the builder client fills them. *)
Module Eth.

Record ExecutionPayload := mkExecutionPayload {
  ParentHash : Z;
  FeeRecipient : Z;
  StateRoot : Z;
  ReceiptsRoot : Z;
  LogsBloom : Z;
  PrevRandao : Z;
  BlockNumber : Z;
  GasLimit : Z;
  GasUsed : Z;
  Timestamp : Z;
  ExtraData : Data;
  BaseFeePerGas : Z;
  BlockHash : Z;
  Transactions : list Data;
  Withdrawals : option (list Withdrawal);
  BlobGasUsed : option Z;
  ExcessBlobGas : option Z
}.

Record ExecutionPayloadEnvelope := mkEnvelope {
  EnvExecutionPayload : ExecutionPayload;
  ParentBeaconBlockRoot : option Z
}.

End Eth.

Definition nilDereference : string := "invalid memory address or nil pointer dereference".

Definition convertWithdrawal (w : CapellaWithdrawal) : Withdrawal :=
  mkWithdrawal (WithdrawalIndex w) (ValidatorIndex w) (WithdrawalAddress w) (WithdrawalAmount w).

(** The [for i, withdrawal := range payload.Withdrawals] loop: a nil entry
    is dereferenced. *)
Fixpoint convertWithdrawals (ws : list (option CapellaWithdrawal)) : outcome (list Withdrawal) :=
  match ws with
  | [] => Ret []
  | None :: _ => Panic nilDereference
  | Some w :: rest =>
      match convertWithdrawals rest with
      | Ret l => Ret (convertWithdrawal w :: l)
      | Panic why => Panic why
      end
  end.

(** [fmt.Errorf("unsupported data version %v", v)]: no [%w], so a plain
    error with the formatted text. *)
Definition unsupportedVersion (v : DataVersion) : error :=
  ErrorNew ("unsupported data version " ++ DataVersion_String v).

Definition versionedExecutionPayloadToExecutionPayloadEnvelope
  (resp : VersionedSubmitBlockRequest) : outcome (Eth.ExecutionPayloadEnvelope + error) :=
  if negb (isDeneb (Version resp)) then Ret (inr (unsupportedVersion (Version resp)))
  else
  match Deneb resp with
  | None => Panic nilDereference
  | Some d =>
  match DenebExecutionPayload_ d with
  | None => Panic nilDereference
  | Some payload =>
  let txs := DTransactions payload in
  match convertWithdrawals (DWithdrawals payload) with
  | Panic why => Panic why
  | Ret ws =>
  match DBaseFeePerGas payload with
  | None => Panic nilDereference
  | Some baseFee =>
  Ret (inl (Eth.mkEnvelope
    (Eth.mkExecutionPayload (DParentHash payload) (DFeeRecipient payload)
       (DStateRoot payload) (DReceiptsRoot payload) (DLogsBloom payload)
       (DPrevRandao payload) (DBlockNumber payload) (DGasLimit payload)
       (DGasUsed payload) (DTimestamp payload) (DExtraData payload) baseFee
       (DBlockHash payload) txs (Some ws) (Some (DBlobGasUsed payload))
       (Some (DExcessBlobGas payload)))
    None))
  end end end end.

(** [fmt.Sprintf("%d", n)] of a [uint64]: at most 20 digits. *)
Definition digitChar (d : Z) : Ascii.ascii := Ascii.ascii_of_nat (48 + Z.to_nat d).

Fixpoint formatDecimal (fuel : nat) (n : Z) (acc : string) : string :=
  match fuel with
  | O => acc
  | S f =>
      let acc' := String (digitChar (n mod 10)) acc in
      if (n <? 10)%Z then acc' else formatDecimal f (n / 10) acc'
  end.

Definition formatUint64 (n : Z) : string := formatDecimal 20 n "".

(** [common.Hash.String]: [0x] and 64 lower-case hexadecimal digits. *)
Definition hexChar (d : Z) : Ascii.ascii :=
  if (d <? 10)%Z then Ascii.ascii_of_nat (48 + Z.to_nat d)
  else Ascii.ascii_of_nat (87 + Z.to_nat d).

Fixpoint hexDigits (k : nat) (h : Z) (acc : string) : string :=
  match k with
  | O => acc
  | S k' => hexDigits k' (Z.shiftr h 4) (String (hexChar (Z.land h 15)) acc)
  end.

Definition hashString (h : Z) : string := "0x" ++ hexDigits 64 h "".

Definition errHTTPErrorResponse : error := ErrorNew "HTTP error response".

Definition PathGetPayload : string := "/eth/v1/builder/payload".

Definition StatusOK : Z := 200.

Record BuilderAPIConfig := mkBuilderAPIConfig {
  ConfigEnabled : bool;
  Endpoint : string
}.

Definition BuilderAPIDefaultConfig : BuilderAPIConfig := mkBuilderAPIConfig false "".

Definition Header := list (string * list string).

(** An HTTP response: its status code and what [io.ReadAll] gives on its body. *)
Record HttpResponse := mkHttpResponse {
  StatusCode : Z;
  Body : Data + error
}.

(** [client.BasicHTTPClient.Get] without query parameters: a path and a
    header, answered by the endpoint the client was made for. *)
Definition BasicHTTPClient := string -> Header -> HttpResponse + error.

Record BuilderAPIClient := mkBuilderAPIClient {
  config : BuilderAPIConfig;
  httpClient : BasicHTTPClient
}.

Definition NewBuilderAPIClient (newBasicHTTPClient : string -> BasicHTTPClient)
  (cfg : BuilderAPIConfig) : BuilderAPIClient :=
  mkBuilderAPIClient cfg (newBasicHTTPClient (Endpoint cfg)).

Definition Enabled (s : BuilderAPIClient) : bool := ConfigEnabled (config s).

(** [ref.Number + 1] in [uint64]. *)
Definition nextSlot (ref : L2BlockRef) : Z := ((RefNumber ref + 1) mod 2 ^ 64)%Z.

Definition getPayloadURL (ref : L2BlockRef) : string :=
  PathGetPayload ++ "/" ++ formatUint64 (nextSlot ref) ++ "/" ++ hashString (RefHash ref).

Definition acceptJSON : Header := [("Accept", ["application/json"])].

(** [BuilderAPIClient.GetPayload]; [json.Unmarshal] into a
    [VersionedSubmitBlockRequest] is the oracle [jsonUnmarshal]. The bid
    value [*uint256.Int] is taken non-nil. *)
Definition BuilderAPIClient_GetPayload
  (jsonUnmarshal : Data -> VersionedSubmitBlockRequest + error)
  (s : BuilderAPIClient) (ref : L2BlockRef)
  : outcome ((Eth.ExecutionPayloadEnvelope * Z) + error) :=
  match httpClient s (getPayloadURL ref) acceptJSON with
  | inr err => Ret (inr err)
  | inl resp =>
  match Body resp with
  | inr err => Ret (inr err)
  | inl bodyBytes =>
  if negb (StatusCode resp =? StatusOK)%Z then Ret (inr errHTTPErrorResponse)
  else
  match jsonUnmarshal bodyBytes with
  | inr err => Ret (inr err)
  | inl responsePayload =>
  if negb (isDeneb (Version responsePayload))
  then Ret (inr (unsupportedVersion (Version responsePayload)))
  else
  match Deneb responsePayload with
  | None => Panic nilDereference
  | Some d =>
  match Message d with
  | None => Panic nilDereference
  | Some m =>
  let profit := BidValue m in
  match versionedExecutionPayloadToExecutionPayloadEnvelope responsePayload with
  | Panic why => Panic why
  | Ret (inr err) => Ret (inr err)
  | Ret (inl envelope) => Ret (inl (envelope, profit))
  end end end end end end.

(** ** Concrete collaborators *)

Definition isNone {A} (o : option A) : bool :=
  match o with None => true | Some _ => false end.

(** The calls recorded once the new-payload call has been made. *)
Definition traceAfterNewPayload (env : ExecutionPayloadEnvelope) (w : world) : list event :=
  EvNewPayload (EnvExecutionPayload env) (ParentBeaconBlockRoot env)
  :: EvCommitUnsafePayload env :: trace w.

(** A collaborator whose forkchoice updates fail with an input error tagged
    [code]; its new-payload calls report a valid payload. *)
Definition fcuErrorEngine (code : Z) : Collab :=
  mkCollab (fun _ _ => None)
    (fun _ _ _ => inr (InputError code (ErrorNew "forkchoice rejected")))
    (fun _ _ _ => inl (mkPayloadStatus ExecutionValid None))
    (fun _ _ => (None, Some (ErrorNew "unknown payload")))
    false
    (fun _ _ => inr (ErrorNew "builder disabled")).

(** A collaborator whose forkchoice updates fail with an error that carries
    no code, as a transport failure does. *)
Definition fcuTransportEngine : Collab :=
  mkCollab (fun _ _ => None)
    (fun _ _ _ => inr (ErrorNew "connection refused"))
    (fun _ _ _ => inl (mkPayloadStatus ExecutionValid None))
    (fun _ _ => (None, Some (ErrorNew "unknown payload")))
    false
    (fun _ _ => inr (ErrorNew "builder disabled")).

Definition sampleEnvelope (beacon : option Z) : ExecutionPayloadEnvelope :=
  mkEnvelope (mkExecutionPayload 1 2 3 [[Byte.x7e]; [Byte.x02]]) beacon.

(** A builder that answers in time, and an engine whose payload retrieval
    fails with a nil envelope, as a Go client returns [nil, err]. *)
Definition engineFetchFails : Collab :=
  mkCollab (fun _ _ => None)
    (fun _ _ _ => inl (mkForkchoiceUpdatedResult (mkPayloadStatus ExecutionValid None) None))
    (fun _ _ _ => inl (mkPayloadStatus ExecutionValid None))
    (fun _ _ => (None, Some (ErrorNew "unknown payload")))
    true
    (fun _ _ => inl (sampleEnvelope None, 7%Z)).

(** An engine envelope whose transactions pass the sanity check, and a
    builder envelope whose first transaction is not a deposit. *)
Definition engineEnvelope0 : ExecutionPayloadEnvelope := sampleEnvelope (Some 9%Z).
Definition builderEnvelope0 : ExecutionPayloadEnvelope :=
  mkEnvelope (mkExecutionPayload 1 4 3 [[Byte.x02]]) None.

Definition fcuValid : ForkchoiceUpdatedResult + error :=
  inl (mkForkchoiceUpdatedResult (mkPayloadStatus ExecutionValid None) (Some 5%Z)).

(** Collaborators answering every call the same way. *)
Definition engineWith (commit : option error) (np : ExecutePayloadStatus)
  (fcu : ForkchoiceUpdatedResult + error) (builderOn : bool) : Collab :=
  mkCollab (fun _ _ => commit) (fun _ _ _ => fcu)
    (fun _ _ _ => inl (mkPayloadStatus np None))
    (fun _ _ => (Some engineEnvelope0, None))
    builderOn
    (fun _ _ => inl (builderEnvelope0, 7%Z)).

Definition fc0 : ForkchoiceState := mkForkchoiceState 1 1 1.
Definition attrs0 : PayloadAttributes := mkPayloadAttributes 0 false.
Definition info0 : PayloadInfo := mkPayloadInfo 171%Z 0%Z.
Definition head0 : L2BlockRef := mkL2BlockRef 0%Z 0%Z.
Definition w0 : world := mkWorld None [].

(** The builder race with both envelopes: the builder envelope after the
    beacon-root backfill, and the calls recorded by the race. *)
Definition builderEnvelopeFilled0 : ExecutionPayloadEnvelope :=
  mkEnvelope (EnvExecutionPayload builderEnvelope0) (Some 9%Z).
Definition raceWorld0 : world := mkWorld None [EvGetPayload info0; EvBuilderGetPayload head0].

(** A Deneb builder response: one deposit, one withdrawal, a base fee. *)
Definition denebPayload0 : DenebExecutionPayload :=
  mkDenebExecutionPayload 1 0 0 0 0 0 3 30 21 12 [] (Some 7%Z) 4 [[Byte.x7e]]
    [Some (mkCapellaWithdrawal 1 2 3 4)] 0 0.
Definition denebRequest0 : VersionedSubmitBlockRequest :=
  mkVersionedSubmitBlockRequest DataVersionDeneb
    (Some (mkDenebSubmitBlockRequest (Some (mkBidTrace 7%Z)) (Some denebPayload0))).
Definition capellaRequest0 : VersionedSubmitBlockRequest :=
  mkVersionedSubmitBlockRequest DataVersionCapella None.

(** A builder endpoint answering every request with [status] and a body;
    the decoder reads any body as [req]. *)
Definition builderClient0 (status : Z) : BuilderAPIClient :=
  NewBuilderAPIClient (fun _ _ _ => inl (mkHttpResponse status (inl [Byte.x7b])))
    (mkBuilderAPIConfig true "http://127.0.0.1:18550").
Definition unmarshalAs (req : VersionedSubmitBlockRequest) : Data -> VersionedSubmitBlockRequest + error :=
  fun _ => inl req.

(** * Properties *)


Lemma forallb_andb {A} (f g : A -> bool) (l : list A) :
  forallb (fun x => f x && g x) l = forallb f l && forallb g l.
Proof.
  induction l as [|x l IH]; simpl; [reflexivity|].
  rewrite IH. destruct (f x), (g x), (forallb f l), (forallb g l); reflexivity.
Qed.

Lemma noDepositAfter_none (rest : list Data) (i last : nat) :
  isNone (noDepositAfter rest i last)
  = forallb (fun t => nonEmptyTx t && negb (isPrivileged t)) rest.
Proof.
  revert i. induction rest as [|tx rest IH]; intro i; simpl; [reflexivity|].
  destruct tx as [|b bs]; simpl; [reflexivity|].
  destruct (Byte.eqb b DepositTxType); simpl; [reflexivity|apply IH].
Qed.

Lemma lastDeposit_loop_mono (l : list Data) (i last ld : nat) :
  (last < i)%nat -> lastDeposit_loop l i last = inl ld -> (last <= ld)%nat.
Proof.
  revert i last. induction l as [|tx l IH]; intros i last Hlt H; simpl in H.
  - inversion H; subst; lia.
  - destruct (isDepositTx tx) as [[|]|]; inversion H; subst; [|lia].
    apply IH in H1; lia.
Qed.

(** The two loops of [sanityCheckPayload] after a leading deposit at index
    [i]: together they accept exactly the lists where no privileged
    transaction follows a non-privileged one and no transaction is empty. *)
Lemma deposit_loops_accept (l : list Data) (i : nat) :
  match lastDeposit_loop l (S i) i with
  | inr _ => false
  | inl ld => isNone (noDepositAfter (skipn (ld - i) l) (S ld) ld)
  end
  = depositsPrefix l && forallb nonEmptyTx l.
Proof.
  revert i. induction l as [|tx l IH]; intro i.
  - simpl. rewrite Nat.sub_diag. reflexivity.
  - destruct tx as [|b bs]; [simpl; rewrite andb_false_r; reflexivity|].
    cbn [lastDeposit_loop isDepositTx depositsPrefix isPrivileged forallb nonEmptyTx].
    destruct (Byte.eqb b DepositTxType) eqn:E.
    + specialize (IH (S i)).
      destruct (lastDeposit_loop l (S (S i)) (S i)) as [ld|e] eqn:L; [|exact IH].
      pose proof (lastDeposit_loop_mono l (S (S i)) (S i) ld ltac:(lia) L) as Hge.
      replace (ld - i)%nat with (S (ld - S i)) by lia.
      exact IH.
    + rewrite Nat.sub_diag. cbn [skipn].
      rewrite noDepositAfter_none. cbn [forallb nonEmptyTx isPrivileged].
      rewrite E, forallb_andb. simpl.
      destruct (forallb nonEmptyTx l), (forallb (fun t => negb (isPrivileged t)) l); reflexivity.
Qed.

(** C1 (as stated, refuted): a sequence with no privileged transaction at all
    has an empty, hence contiguous, privileged prefix, yet the validator
    rejects it because its first transaction is not a deposit. *)
Lemma sanityCheckPayload_rejects_empty_deposit_prefix :
  ~ (forall payload,
       Transactions payload <> [] ->
       (sanityCheckPayload payload = Ret None <->
        depositsPrefix (Transactions payload) = true)).
Proof.
  intro H.
  specialize (H (payloadWith [[Byte.x02]]) ltac:(discriminate)).
  destruct H as [_ H]. specialize (H eq_refl). discriminate H.
Qed.

(** C1 (amended): the validator accepts a payload iff its transaction list
    is non-empty, its first transaction is privileged, every transaction is
    non-empty and no privileged transaction follows a non-privileged one;
    the empty transaction list is rejected with an error. *)
Theorem sanityCheckPayload_accepts_iff :
  (forall payload,
     sanityCheckPayload payload = Ret None <->
     validTransactions (Transactions payload) = true) /\
  (forall parent hash number,
     exists e, sanityCheckPayload (mkExecutionPayload parent hash number []) = Ret (Some e)).
Proof.
  split; [|intros; eexists; reflexivity].
  intro payload. unfold sanityCheckPayload, validTransactions.
  destruct (Transactions payload) as [|tx0 r]; [split; discriminate|].
  destruct tx0 as [|b bs]; [split; discriminate|].
  cbn [isPrivileged]. unfold lastDeposit.
  cbn [lastDeposit_loop isDepositTx].
  destruct (Byte.eqb b DepositTxType) eqn:E; [|split; discriminate].
  cbn [negb depositsPrefix isPrivileged forallb nonEmptyTx skipn]. rewrite E.
  pose proof (deposit_loops_accept r 0) as K.
  destruct (lastDeposit_loop r 1 0) as [ld|e].
  - rewrite Nat.sub_0_r in K. simpl andb.
    rewrite <- K. destruct (noDepositAfter (skipn ld r) (S ld) ld); simpl;
      split; congruence.
  - simpl andb. rewrite <- K. split; discriminate.
Qed.

(** C9 (code bug): when the first transaction is the empty byte string,
    [sanityCheckPayload] indexes [payload.Transactions[0][0]] and panics,
    although [isDepositTx] reports an empty transaction as an error. *)
Theorem sanityCheckPayload_empty_first_tx_panics :
  isDepositTx [] = inr (ErrorNew "empty transaction") /\
  sanityCheckPayload (payloadWith [[]]) =
    Panic "runtime error: index out of range [0] with length 0".
Proof. split; reflexivity. Qed.

(** ** Payload Insertion State Machine *)

Ltac run_M :=
  unfold insertPayload, startPayload, bind, liftOutcome, ret, panicM,
    commitUnsafePayload, newPayload, forkchoiceUpdate, getPayload,
    builderGetPayload, call, agossipGossip, agossipClear, agossipGet;
  cbn -[sanityCheckPayload postBuildForkchoice].

(** C2: after the conductor commit, a new-payload status invalid or
    invalid-block-hash yields [BlockInsertPayloadErr] with the gossip cache
    cleared; any other non-valid status yields [BlockInsertTemporaryErr] and
    leaves the envelope in the gossip cache. *)
Theorem insertPayload_invalid_status_clears_gossip
  (c : Collab) (fc : ForkchoiceState) (updateSafe : bool)
  (env : ExecutionPayloadEnvelope) (w : world) (status : PayloadStatusV1) :
  sanityCheckPayload (EnvExecutionPayload env) = Ret None ->
  CommitUnsafePayload c (trace w) env = None ->
  NewPayload c (EvCommitUnsafePayload env :: trace w)
    (EnvExecutionPayload env) (ParentBeaconBlockRoot env) = inl status ->
  ((Status status = ExecutionInvalid \/ Status status = ExecutionInvalidBlockHash) ->
   exists err w', insertPayload c fc updateSafe (Some env) w
                  = Ret ((BlockInsertPayloadErr, Some err), w') /\ gossip w' = None) /\
  (Status status <> ExecutionValid -> Status status <> ExecutionInvalid ->
   Status status <> ExecutionInvalidBlockHash ->
   exists err w', insertPayload c fc updateSafe (Some env) w
                  = Ret ((BlockInsertTemporaryErr, Some err), w') /\ gossip w' = Some env).
Proof.
  intros Hs Hc Hn. run_M. rewrite Hs. cbn. rewrite Hc. cbn. rewrite Hn.
  split.
  - intros [E|E]; rewrite E; do 2 eexists; split; reflexivity.
  - intros H1 H2 H3. destruct (Status status); try congruence;
      do 2 eexists; split; reflexivity.
Qed.

(** C3: when the conductor commit fails, [insertPayload] returns
    [BlockInsertTemporaryErr]; the gossip cache is the one it was before (gossip
    never begins) and the commit is the only call recorded: no engine call. *)
Theorem insertPayload_commit_failure_temporary
  (c : Collab) (fc : ForkchoiceState) (updateSafe : bool)
  (env : ExecutionPayloadEnvelope) (w : world) (err : error) :
  sanityCheckPayload (EnvExecutionPayload env) = Ret None ->
  CommitUnsafePayload c (trace w) env = Some err ->
  exists e, insertPayload c fc updateSafe (Some env) w
            = Ret ((BlockInsertTemporaryErr, Some e),
                   mkWorld (gossip w) (EvCommitUnsafePayload env :: trace w)) /\
            isEngineCall (EvCommitUnsafePayload env) = false.
Proof.
  intros Hs Hc. run_M. rewrite Hs. cbn. rewrite Hc. cbn.
  eexists; split; reflexivity.
Qed.


(** C4: when the post-build forkchoice update fails with a tagged input
    error, the gossip cache is empty when [insertPayload] returns, and the
    invalid-forkchoice-state code gives [BlockInsertPayloadErr]. *)
Theorem insertPayload_post_build_input_error_clears_gossip
  (c : Collab) (fc : ForkchoiceState) (updateSafe : bool)
  (env : ExecutionPayloadEnvelope) (w : world) (status : PayloadStatusV1)
  (err : error) (code : Z) (inner : error) :
  sanityCheckPayload (EnvExecutionPayload env) = Ret None ->
  CommitUnsafePayload c (trace w) env = None ->
  NewPayload c (EvCommitUnsafePayload env :: trace w)
    (EnvExecutionPayload env) (ParentBeaconBlockRoot env) = inl status ->
  Status status = ExecutionValid ->
  ForkchoiceUpdate c (traceAfterNewPayload env w)
    (postBuildForkchoice fc (EnvExecutionPayload env) updateSafe) None = inr err ->
  asInputError err = Some (code, inner) ->
  exists t e w', insertPayload c fc updateSafe (Some env) w = Ret ((t, Some e), w') /\
                 gossip w' = None /\
                 (code = InvalidForkchoiceState -> t = BlockInsertPayloadErr).
Proof.
  intros Hs Hc Hn Hv Hf Ha. run_M. rewrite Hs. cbn. rewrite Hc. cbn. rewrite Hn, Hv. cbn.
  unfold traceAfterNewPayload in Hf. rewrite Hf. cbn. rewrite Ha.
  destruct (Z.eqb code InvalidForkchoiceState) eqn:E.
  - do 3 eexists; split; [cbv; reflexivity|]. split; [reflexivity|]. reflexivity.
  - do 3 eexists; split; [cbv; reflexivity|]. split; [reflexivity|].
    intro Hcode. subst code. rewrite Z.eqb_refl in E. discriminate.
Qed.

(** ** Forkchoice error classification *)


(** C5 (as stated, refuted): with the engine code -32000 (JSON-RPC server
    error), neither
    invalid-forkchoice-state nor invalid-payload-attributes, [startPayload]
    does not return [BlockInsertTemporaryErr]. *)
Lemma startPayload_unknown_code_not_temporary :
  ~ (forall c fc attrs w code inner,
       code <> InvalidForkchoiceState -> code <> InvalidPayloadAttributes ->
       ForkchoiceUpdate c (trace w) fc (Some attrs) = inr (InputError code inner) ->
       exists id e w', startPayload c fc attrs w = Ret ((id, BlockInsertTemporaryErr, Some e), w')).
Proof.
  intro H.
  destruct (H (fcuErrorEngine (-32000)) fc0 attrs0 w0 (-32000)%Z (ErrorNew "forkchoice rejected")
              ltac:(discriminate) ltac:(discriminate) eq_refl) as (id & e & w' & E).
  discriminate E.
Qed.

(** C5 (amended): a forkchoice-update error tagged with a code that is
    neither invalid-forkchoice-state nor invalid-payload-attributes is
    classified [BlockInsertPrestateErr], both before the build
    ([startPayload]) and after it ([insertPayload], which also clears the
    gossip cache); in both contexts a forkchoice-update error is classified
    [BlockInsertTemporaryErr] exactly when it carries no code. *)
Theorem forkchoice_unknown_code_prestate :
  (forall c fc attrs w err code inner,
     ForkchoiceUpdate c (trace w) fc (Some attrs) = inr err ->
     asInputError err = Some (code, inner) ->
     code <> InvalidForkchoiceState -> code <> InvalidPayloadAttributes ->
     exists e w', startPayload c fc attrs w = Ret ((0%Z, BlockInsertPrestateErr, Some e), w')) /\
  (forall c fc updateSafe env w status err code inner,
     sanityCheckPayload (EnvExecutionPayload env) = Ret None ->
     CommitUnsafePayload c (trace w) env = None ->
     NewPayload c (EvCommitUnsafePayload env :: trace w)
       (EnvExecutionPayload env) (ParentBeaconBlockRoot env) = inl status ->
     Status status = ExecutionValid ->
     ForkchoiceUpdate c (traceAfterNewPayload env w)
       (postBuildForkchoice fc (EnvExecutionPayload env) updateSafe) None = inr err ->
     asInputError err = Some (code, inner) ->
     code <> InvalidForkchoiceState -> code <> InvalidPayloadAttributes ->
     exists e w', insertPayload c fc updateSafe (Some env) w
                  = Ret ((BlockInsertPrestateErr, Some e), w') /\ gossip w' = None) /\
  (forall c fc attrs w err id t e w',
     ForkchoiceUpdate c (trace w) fc (Some attrs) = inr err ->
     startPayload c fc attrs w = Ret ((id, t, e), w') ->
     (t = BlockInsertTemporaryErr <-> asInputError err = None)) /\
  (forall c fc updateSafe env w status err t e w',
     sanityCheckPayload (EnvExecutionPayload env) = Ret None ->
     CommitUnsafePayload c (trace w) env = None ->
     NewPayload c (EvCommitUnsafePayload env :: trace w)
       (EnvExecutionPayload env) (ParentBeaconBlockRoot env) = inl status ->
     Status status = ExecutionValid ->
     ForkchoiceUpdate c (traceAfterNewPayload env w)
       (postBuildForkchoice fc (EnvExecutionPayload env) updateSafe) None = inr err ->
     insertPayload c fc updateSafe (Some env) w = Ret ((t, e), w') ->
     (t = BlockInsertTemporaryErr <-> asInputError err = None)).
Proof.
  split; [|split; [|split]].
  - intros c fc attrs w err code inner Hf Ha H1 H2. run_M. rewrite Hf. cbn. rewrite Ha.
    apply Z.eqb_neq in H1, H2. rewrite H1, H2. do 2 eexists; reflexivity.
  - intros c fc updateSafe env w status err code inner Hs Hc Hn Hv Hf Ha H1 H2.
    run_M. rewrite Hs. cbn. rewrite Hc. cbn. rewrite Hn, Hv. cbn.
    unfold traceAfterNewPayload in Hf. rewrite Hf. cbn. rewrite Ha.
    apply Z.eqb_neq in H1. rewrite H1. do 2 eexists; split; reflexivity.
  - intros c fc attrs w err id t e w' Hf H. revert H. run_M. rewrite Hf. cbn.
    destruct (asInputError err) as [[code inner]|].
    + destruct (Z.eqb code InvalidForkchoiceState); [|destruct (Z.eqb code InvalidPayloadAttributes)];
        intro H; inversion H; subst; split; intro X; discriminate X.
    + intro H; inversion H; subst; split; reflexivity.
  - intros c fc updateSafe env w status err t e w' Hs Hc Hn Hv Hf H. revert H.
    run_M. rewrite Hs. cbn. rewrite Hc. cbn. rewrite Hn, Hv. cbn.
    unfold traceAfterNewPayload in Hf. rewrite Hf. cbn.
    destruct (asInputError err) as [[code inner]|].
    + destruct (Z.eqb code InvalidForkchoiceState);
        intro H; inversion H; subst; split; intro X; discriminate X.
    + intro H; inversion H; subst; split; reflexivity.
Qed.


(** ** Builder Race Coordinator *)

Ltac split_run H :=
  unfold startPayload, insertPayload, bind, liftOutcome, ret, panicM,
    commitUnsafePayload, newPayload, forkchoiceUpdate, getPayload,
    builderGetPayload, call, agossipGossip, agossipClear, agossipGet in H;
  cbn -[sanityCheckPayload] in H;
  repeat (match type of H with
          | context [match ?x with _ => _ end] => destruct x eqn:?
          end; cbn -[sanityCheckPayload] in H).

(** C7: whenever the race returns a builder envelope, the engine envelope
    is present, the builder envelope is the builder's payload, and its
    parent beacon block root is the engine envelope's one (the builder's own
    value is overwritten). *)
Theorem getPayloadWithBuilderPayload_beacon_root_backfill
  (c : Collab) (payloadInfo : PayloadInfo) (l2head : L2BlockRef) (builderWins : bool)
  (w w' : world) (eenv : option ExecutionPayloadEnvelope) (benv : ExecutionPayloadEnvelope)
  (profit : option Z) (err : option error) :
  getPayloadWithBuilderPayload c payloadInfo l2head builderWins w
    = Ret ((eenv, Some benv, profit, err), w') ->
  exists e benv0 p,
    eenv = Some e /\
    BuilderGetPayload c (trace w) l2head = inl (benv0, p) /\
    EnvExecutionPayload benv = EnvExecutionPayload benv0 /\
    ParentBeaconBlockRoot benv = ParentBeaconBlockRoot e.
Proof.
  intro H. unfold getPayloadWithBuilderPayload in H.
  cbn in H.
  destruct (BuilderEnabled c); cbn in H.
  - destruct (BuilderGetPayload c (trace w) l2head) as [[b0 p0]|be] eqn:B; cbn in H;
      destruct (GetPayload c _ payloadInfo) as [e0 er0]; cbn in H.
    + destruct builderWins; [|discriminate].
      destruct e0 as [e|]; [|discriminate].
      inversion H; subst. exists e, b0, p0. repeat split; reflexivity.
    + discriminate.
  - destruct (GetPayload c (trace w) payloadInfo). discriminate.
Qed.



(** C10 (code bug): when the builder result wins the [select] and the
    engine fetch returned [nil, err], the beacon-root backfill dereferences
    the nil engine envelope and panics, and so does [confirmPayload]; when
    the deadline case is taken instead, the same engine error is reported
    as [BlockInsertTemporaryErr]. *)
Theorem getPayloadWithBuilderPayload_nil_engine_envelope_panics :
  let info := mkPayloadInfo 171%Z 0%Z in
  let head := mkL2BlockRef 0%Z 0%Z in
  let w := mkWorld None [] in
  getPayloadWithBuilderPayload engineFetchFails info head true w
    = Panic "invalid memory address or nil pointer dereference" /\
  confirmPayload engineFetchFails (mkForkchoiceState 0%Z 0%Z 0%Z) info false head true w
    = Panic "invalid memory address or nil pointer dereference" /\
  exists e w', confirmPayload engineFetchFails (mkForkchoiceState 0%Z 0%Z 0%Z) info false head false w
               = Ret ((None, BlockInsertTemporaryErr, Some e), w').
Proof.
  split; [reflexivity|]. split; [reflexivity|]. do 2 eexists. reflexivity.
Qed.

(** ** Build/Confirm Orchestrator *)

Lemma startPayload_ok_iff_nil c fc attrs w id t e w' :
  startPayload c fc attrs w = Ret ((id, t, e), w') -> (t = BlockInsertOK <-> e = None).
Proof.
  intro H. unfold startPayload in H. split_run H;
    inversion H; subst; split; intro; congruence.
Qed.

Lemma insertPayload_ok_iff_nil c fc updateSafe env w t e w' :
  insertPayload c fc updateSafe env w = Ret ((t, e), w') -> (t = BlockInsertOK <-> e = None).
Proof.
  intro H. unfold insertPayload in H. split_run H;
    inversion H; subst; split; intro; congruence.
Qed.

Ltac insert_case H :=
  match type of H with
  | context [insertPayload ?c ?fc ?u ?env ?w] =>
      let t0 := fresh "t" in let e0 := fresh "e" in let w0 := fresh "w" in
      let I := fresh "I" in
      destruct (insertPayload c fc u env w) as [[[t0 e0] w0]|?] eqn:I;
      cbn in H; [|discriminate H]
  end.

Lemma confirmPayload_ok_iff_nil c fc payloadInfo updateSafe l2head builderWins w out t e w' :
  confirmPayload c fc payloadInfo updateSafe l2head builderWins w = Ret ((out, t, e), w') ->
  (t = BlockInsertOK <-> e = None).
Proof.
  intro H. unfold confirmPayload, bind, ret, agossipGet in H.
  destruct (gossip w) as [cached|]; cbn -[insertPayload getPayloadWithBuilderPayload] in H.
  - insert_case H. inversion H; subst. eapply insertPayload_ok_iff_nil; eassumption.
  - destruct (getPayloadWithBuilderPayload c payloadInfo l2head builderWins w)
      as [[[[[eenv benv] p] err] w1]|?]; cbn -[insertPayload] in H; [|discriminate H].
    destruct err as [err|]; cbn -[insertPayload] in H.
    + inversion H; subst. split; intro; discriminate.
    + destruct benv as [benv|]; cbn -[insertPayload] in H.
      * insert_case H. destruct e0 as [e0|]; cbn -[insertPayload] in H.
        -- insert_case H. inversion H; subst. eapply insertPayload_ok_iff_nil; eassumption.
        -- inversion H; subst. eapply insertPayload_ok_iff_nil; eassumption.
      * insert_case H. inversion H; subst. eapply insertPayload_ok_iff_nil; eassumption.
Qed.

(** C8: [startPayload], [insertPayload] and [confirmPayload], whenever they
    return, return [BlockInsertOK] exactly when their error is nil. *)
Theorem insertion_ok_iff_nil_error :
  (forall c fc attrs w id t e w',
     startPayload c fc attrs w = Ret ((id, t, e), w') -> (t = BlockInsertOK <-> e = None)) /\
  (forall c fc updateSafe env w t e w',
     insertPayload c fc updateSafe env w = Ret ((t, e), w') -> (t = BlockInsertOK <-> e = None)) /\
  (forall c fc payloadInfo updateSafe l2head builderWins w out t e w',
     confirmPayload c fc payloadInfo updateSafe l2head builderWins w = Ret ((out, t, e), w') ->
     (t = BlockInsertOK <-> e = None)).
Proof.
  split; [exact startPayload_ok_iff_nil|].
  split; [exact insertPayload_ok_iff_nil|exact confirmPayload_ok_iff_nil].
Qed.

(** C6: once the race has given an engine and a builder envelope without
    error, a failed builder insertion is followed by the insertion of the
    engine envelope, run in the state the builder attempt left, and only
    its severity and error are returned, with the engine envelope; a
    successful builder insertion returns the builder envelope and
    [BlockInsertOK]. *)
Theorem confirmPayload_builder_fallback
  (c : Collab) (fc : ForkchoiceState) (payloadInfo : PayloadInfo) (updateSafe : bool)
  (l2head : L2BlockRef) (builderWins : bool) (w w1 : world)
  (eenv benv : ExecutionPayloadEnvelope) (profit : option Z) :
  gossip w = None ->
  getPayloadWithBuilderPayload c payloadInfo l2head builderWins w
    = Ret ((Some eenv, Some benv, profit, None), w1) ->
  (forall t e w2,
     insertPayload c fc updateSafe (Some benv) w1 = Ret ((t, Some e), w2) ->
     confirmPayload c fc payloadInfo updateSafe l2head builderWins w
     = match insertPayload c fc updateSafe (Some eenv) w2 with
       | Ret ((t', e'), w3) => Ret ((Some eenv, t', e'), w3)
       | Panic why => Panic why
       end) /\
  (forall t w2,
     insertPayload c fc updateSafe (Some benv) w1 = Ret ((t, None), w2) ->
     confirmPayload c fc payloadInfo updateSafe l2head builderWins w
     = Ret ((Some benv, BlockInsertOK, None), w2)).
Proof.
  intros Hg Hr. unfold confirmPayload, bind, ret, agossipGet.
  rewrite Hg. cbn -[insertPayload getPayloadWithBuilderPayload].
  rewrite Hr. cbn -[insertPayload].
  split.
  - intros t e w2 Hb. rewrite Hb. cbn -[insertPayload].
    destruct (insertPayload c fc updateSafe (Some eenv) w2) as [[[t' e'] w3]|why];
      reflexivity.
  - intros t w2 Hb. rewrite Hb. cbn.
    apply insertPayload_ok_iff_nil in Hb. destruct Hb as [_ Hb].
    rewrite (Hb eq_refl). reflexivity.
Qed.

(** ** More of the validator *)


Lemma lastDeposit_loop_app (ds rest : list Data) (i last : nat) :
  forallb isPrivileged ds = true ->
  lastDeposit_loop ((ds ++ rest)%list) i last =
  lastDeposit_loop rest (i + List.length ds)
    (match ds with [] => last | _ => i + List.length ds - 1 end)%nat.
Proof.
  revert i last. induction ds as [|d ds IH]; intros i last H.
  - simpl. rewrite Nat.add_0_r. reflexivity.
  - simpl in H. apply andb_prop in H as [Hd H].
    destruct d as [|b bs]; [discriminate Hd|]. cbn in Hd.
    cbn [app lastDeposit_loop isDepositTx]. rewrite Hd. rewrite IH by exact H.
    cbn [length]. replace (S i + List.length ds)%nat with (i + S (List.length ds))%nat by lia.
    destruct ds; f_equal; simpl; lia.
Qed.

Lemma noDepositAfter_app (ns rest : list Data) (i last : nat) :
  forallb (fun t => nonEmptyTx t && negb (isPrivileged t)) ns = true ->
  noDepositAfter (ns ++ rest)%list i last = noDepositAfter rest (i + List.length ns) last.
Proof.
  revert i. induction ns as [|n ns IH]; intros i H.
  - simpl. rewrite Nat.add_0_r. reflexivity.
  - simpl in H. apply andb_prop in H as [Hn H].
    destruct n as [|b bs]; [discriminate Hn|]. cbn in Hn.
    cbn [app noDepositAfter isDepositTx].
    destruct (Byte.eqb b DepositTxType); [discriminate Hn|].
    rewrite IH by exact H. f_equal. simpl. lia.
Qed.

(** X1: [lastDeposit] on a list that starts with the deposits [ds]: when the
    run of deposits ends the list or is followed by a non-empty non-deposit,
    it returns the index of the last deposit of the run; when it is followed
    by an empty transaction, it fails naming that transaction's index. *)
Theorem lastDeposit_leading_deposits (ds rest : list Data) :
  forallb isPrivileged ds = true ->
  (ds <> [] ->
   (rest = [] \/ exists tx r, rest = tx :: r /\ nonEmptyTx tx = true /\ isPrivileged tx = false) ->
   lastDeposit ((ds ++ rest)%list) = inl (List.length ds - 1)%nat) /\
  (forall r, lastDeposit (ds ++ [] :: r)%list =
             inr (Errorf "invalid transaction at idx %d" [Z.of_nat (List.length ds)])).
Proof.
  intro H. unfold lastDeposit. split.
  - intros Hne Hrest. rewrite lastDeposit_loop_app by exact H.
    destruct ds as [|d ds]; [congruence|].
    destruct Hrest as [->|(tx & r & -> & Htx & Hp)]; [reflexivity|].
    destruct tx as [|b bs]; [discriminate Htx|]. cbn in Hp.
    cbn [lastDeposit_loop isDepositTx]. rewrite Hp. reflexivity.
  - intro r. rewrite lastDeposit_loop_app by exact H. reflexivity.
Qed.

(** X2: When the leading deposits [ds] are followed by non-deposits [ns] and
    then a deposit, [sanityCheckPayload] rejects the payload naming the
    index of that first misplaced deposit and of the last leading deposit. *)
Theorem sanityCheckPayload_reports_first_misplaced_deposit
  (payload : ExecutionPayload) (ds ns : list Data) (d : Data) (r : list Data) :
  Transactions payload = (ds ++ ns ++ d :: r)%list ->
  ds <> [] -> forallb isPrivileged ds = true ->
  ns <> [] -> forallb (fun t => nonEmptyTx t && negb (isPrivileged t)) ns = true ->
  isPrivileged d = true ->
  sanityCheckPayload payload =
  Ret (Some (Errorf "deposit tx (%d) after other tx in l2 block with prev deposit at idx %d"
               [Z.of_nat (List.length ds + List.length ns); Z.of_nat (List.length ds - 1)])).
Proof.
  intros Ht Hds Hp Hns Hn Hd.
  assert (Hld : lastDeposit (ds ++ ns ++ d :: r)%list = inl (List.length ds - 1)%nat).
  { apply (proj1 (lastDeposit_leading_deposits ds (ns ++ d :: r)%list Hp) Hds).
    destruct ns as [|n ns]; [congruence|]. right. exists n, (ns ++ d :: r)%list.
    simpl in Hn. apply andb_prop in Hn as [Hn _]. apply andb_prop in Hn as [H1 H2].
    split; [reflexivity|]. split; [exact H1|]. destruct (isPrivileged n); [discriminate|reflexivity]. }
  unfold sanityCheckPayload. rewrite Ht, Hld.
  destruct ds as [|d0 ds']; [congruence|].
  pose proof Hp as Hp0. simpl in Hp0. apply andb_prop in Hp0 as [Hd0 _].
  destruct d0 as [|b bs]; [discriminate Hd0|]. cbn in Hd0.
  cbn [app]. rewrite Hd0. cbn [negb].
  change ((b :: bs) :: (ds' ++ ns ++ d :: r))%list
    with (((b :: bs) :: ds') ++ ns ++ d :: r)%list.
  assert (E : forall n, S (S n - 1) = S n) by lia.
  cbn [Datatypes.length]. rewrite !E.
  change (S (Datatypes.length ds')) with (Datatypes.length ((b :: bs) :: ds')).
  rewrite skipn_app, skipn_all, Nat.sub_diag. cbn [skipn app].
  rewrite noDepositAfter_app by exact Hn.
  destruct d as [|bd bds]; [discriminate Hd|]. cbn in Hd.
  cbn [noDepositAfter isDepositTx]. rewrite Hd.
  cbn [Datatypes.length]. repeat f_equal; try lia.
Qed.

(** ** More of the orchestration *)

Ltac split_insert H :=
  unfold insertPayload in H;
  match type of H with
  | context [sanityCheckPayload ?p] => destruct (sanityCheckPayload p) eqn:?
  end;
  split_run H.

(** X3: [startPayload] returns [BlockInsertOK] exactly when the forkchoice
    update answered VALID with a payload ID, and then returns that ID; on
    every other result the ID is the zero [eth.PayloadID{}]. *)
Theorem startPayload_ok_exactly_on_valid_id c fc attrs w id t e w' :
  startPayload c fc attrs w = Ret ((id, t, e), w') ->
  (t = BlockInsertOK <->
   exists res, ForkchoiceUpdate c (trace w) fc (Some attrs) = inl res /\
               Status (PayloadStatus res) = ExecutionValid /\ FcPayloadID res = Some id) /\
  (t <> BlockInsertOK -> id = 0%Z).
Proof.
  intro H. split_run H; inversion H; subst;
    (split; [split; [intro X; try discriminate X; eexists; repeat split; eassumption
                    |intros (res & E1 & E2 & E3); congruence]
            |intro X; first [reflexivity | congruence]]).
Qed.

(** X5: A payload rejected by the sanity check is reported as
    [BlockInsertPayloadErr] with the check's error, before any call: the
    state is unchanged. *)
Theorem insertPayload_sanity_failure_no_effect c fc updateSafe env w err :
  sanityCheckPayload (EnvExecutionPayload env) = Ret (Some err) ->
  insertPayload c fc updateSafe (Some env) w = Ret ((BlockInsertPayloadErr, Some err), w).
Proof. intro Hs. run_M. rewrite Hs. reflexivity. Qed.

(** X6: A successful [insertPayload] committed the envelope, then submitted
    the payload with its beacon root, then moved the head (and the safe
    head iff [updateSafe]) to the block, keeping the finalized hash, in this
    order, and leaves the gossip cache empty. *)
Theorem insertPayload_ok_effects c fc updateSafe env w e w' :
  insertPayload c fc updateSafe (Some env) w = Ret ((BlockInsertOK, e), w') ->
  gossip w' = None /\
  trace w' = EvForkchoiceUpdate (postBuildForkchoice fc (EnvExecutionPayload env) updateSafe) None
             :: EvNewPayload (EnvExecutionPayload env) (ParentBeaconBlockRoot env)
             :: EvCommitUnsafePayload env :: trace w /\
  HeadBlockHash (postBuildForkchoice fc (EnvExecutionPayload env) updateSafe)
    = BlockHash (EnvExecutionPayload env) /\
  SafeBlockHash (postBuildForkchoice fc (EnvExecutionPayload env) updateSafe)
    = (if updateSafe then BlockHash (EnvExecutionPayload env) else SafeBlockHash fc) /\
  FinalizedBlockHash (postBuildForkchoice fc (EnvExecutionPayload env) updateSafe)
    = FinalizedBlockHash fc.
Proof.
  intro H. split_insert H; inversion H; subst; repeat split; reflexivity.
Qed.

(** X7: Once the conductor commit succeeded, [insertPayload] returns with the
    envelope still in the gossip cache exactly when the severity is
    [BlockInsertTemporaryErr]; on every other severity (OK, prestate or
    payload error) the cache is empty. *)
Theorem insertPayload_gossip_after_commit c fc updateSafe env w t e w' :
  sanityCheckPayload (EnvExecutionPayload env) = Ret None ->
  CommitUnsafePayload c (trace w) env = None ->
  insertPayload c fc updateSafe (Some env) w = Ret ((t, e), w') ->
  gossip w' = match t with BlockInsertTemporaryErr => Some env | _ => None end.
Proof.
  intros Hs Hc H. split_insert H; inversion H; subst; first [reflexivity | congruence].
Qed.

(** X8: The first call [insertPayload] makes is the conductor commit, and it
    calls nothing else unless the commit succeeded. *)
Theorem insertPayload_commit_precedes_engine c fc updateSafe env w t e w' :
  insertPayload c fc updateSafe (Some env) w = Ret ((t, e), w') ->
  exists new, trace w' = (new ++ trace w)%list /\
    (new = [] \/
     exists pre, new = (pre ++ [EvCommitUnsafePayload env])%list /\
                 (pre <> [] -> CommitUnsafePayload c (trace w) env = None)).
Proof.
  intro H. split_insert H; inversion H; subst.
  all: cbn [trace].
  all: lazymatch goal with
       | |- exists new, ?a :: ?b :: ?x :: ?r = (new ++ ?r)%list /\ _ => exists [a; b; x]
       | |- exists new, ?a :: ?b :: ?r = (new ++ ?r)%list /\ _ => exists [a; b]
       | |- exists new, ?a :: ?r = (new ++ ?r)%list /\ _ => exists [a]
       | |- _ => exists []
       end.
  all: split; [reflexivity|].
  all: first
    [ left; reflexivity
    | right; match goal with |- exists pre, ?l = _ /\ _ => exists (removelast l) end;
      split; [reflexivity|cbn; intros X; first [reflexivity|assumption|congruence]] ].
Qed.

(** X9: When the builder is disabled, the race is a single engine fetch: the
    engine's answer is returned as is, with no builder envelope and no
    profit, and the builder is never called. *)
Theorem getPayloadWithBuilderPayload_builder_disabled
  (c : Collab) (payloadInfo : PayloadInfo) (l2head : L2BlockRef) (builderWins : bool) (w : world) :
  BuilderEnabled c = false ->
  getPayloadWithBuilderPayload c payloadInfo l2head builderWins w
  = Ret ((fst (GetPayload c (trace w) payloadInfo), None, None,
          snd (GetPayload c (trace w) payloadInfo)),
         mkWorld (gossip w) (EvGetPayload payloadInfo :: trace w)).
Proof.
  intro Hb. unfold getPayloadWithBuilderPayload, getPayload, builderGetPayload, call, bind, ret.
  rewrite Hb. cbn. destruct (GetPayload c (trace w) payloadInfo); reflexivity.
Qed.

Ltac run_race :=
  split; [first [reflexivity|assumption]|]; split; [reflexivity|]; split; [reflexivity|];
  split; [split; intro X; congruence|].

(** X10: Whatever the race returns, the engine envelope and the error are the
    engine's answer; the gossip cache is untouched; a builder envelope comes
    with a profit and only when the builder answered without error and won
    the race. *)
Theorem getPayloadWithBuilderPayload_engine_result
  (c : Collab) (payloadInfo : PayloadInfo) (l2head : L2BlockRef) (builderWins : bool)
  (w w' : world) (eenv benv : option ExecutionPayloadEnvelope) (profit : option Z)
  (err : option error) :
  getPayloadWithBuilderPayload c payloadInfo l2head builderWins w
    = Ret ((eenv, benv, profit, err), w') ->
  let pre := if BuilderEnabled c then [EvBuilderGetPayload l2head] else [] in
  GetPayload c (pre ++ trace w)%list payloadInfo = (eenv, err) /\
  gossip w' = gossip w /\
  trace w' = (EvGetPayload payloadInfo :: pre ++ trace w)%list /\
  (benv = None <-> profit = None) /\
  (benv <> None ->
   BuilderEnabled c = true /\ builderWins = true /\
   exists b p, BuilderGetPayload c (trace w) l2head = inl (b, p) /\ profit = Some p).
Proof.
  intro H. unfold getPayloadWithBuilderPayload, getPayload, builderGetPayload, call, bind, ret,
    panicM in H.
  destruct (BuilderEnabled c); cbn in H |- *.
  - destruct (BuilderGetPayload c (trace w) l2head) as [[b0 p0]|be] eqn:B; cbn in H;
      destruct (GetPayload c _ payloadInfo) as [e0 er0] eqn:G; cbn in H.
    + destruct builderWins.
      * destruct e0 as [e|]; [|discriminate].
        inversion H; subst. run_race.
        intros _. split; [reflexivity|split; [reflexivity|eauto]].
      * inversion H; subst. run_race. intro X; congruence.
    + inversion H; subst. run_race. intro X; congruence.
  - destruct (GetPayload c (trace w) payloadInfo) as [e0 er0] eqn:G.
    inversion H; subst. run_race. intro X; congruence.
Qed.

(** X11: With an envelope already in the gossip cache, [confirmPayload] fetches
    nothing and inserts the cached envelope, returning it with the
    insertion's result. *)
Theorem confirmPayload_cached_envelope
  (c : Collab) (fc : ForkchoiceState) (payloadInfo : PayloadInfo) (updateSafe : bool)
  (l2head : L2BlockRef) (builderWins : bool) (w : world) (env : ExecutionPayloadEnvelope) :
  gossip w = Some env ->
  confirmPayload c fc payloadInfo updateSafe l2head builderWins w
  = match insertPayload c fc updateSafe (Some env) w with
    | Ret ((t, e), w') => Ret ((Some env, t, e), w')
    | Panic why => Panic why
    end.
Proof.
  intro Hg. unfold confirmPayload, bind, ret, agossipGet. rewrite Hg.
  cbn -[insertPayload].
  destruct (insertPayload c fc updateSafe (Some env) w) as [[[t e] w']|why]; reflexivity.
Qed.

(** X12: A fetch error ends [confirmPayload] with no insertion: no envelope, a
    temporary error wrapping the fetch error, and the state the race left. *)
Theorem confirmPayload_fetch_error
  (c : Collab) (fc : ForkchoiceState) (payloadInfo : PayloadInfo) (updateSafe : bool)
  (l2head : L2BlockRef) (builderWins : bool) (w w1 : world)
  (eenv benv : option ExecutionPayloadEnvelope) (profit : option Z) (err : error) :
  gossip w = None ->
  getPayloadWithBuilderPayload c payloadInfo l2head builderWins w
    = Ret ((eenv, benv, profit, Some err), w1) ->
  confirmPayload c fc payloadInfo updateSafe l2head builderWins w
  = Ret ((None, BlockInsertTemporaryErr,
          Some (Wrapf "failed to get execution payload: %w" [] err)), w1).
Proof.
  intros Hg Hr. unfold confirmPayload, bind, ret, agossipGet.
  rewrite Hg. cbn -[insertPayload getPayloadWithBuilderPayload].
  rewrite Hr. reflexivity.
Qed.

(** X13: Without a builder envelope and without a fetch error, [confirmPayload]
    inserts the engine envelope in the state the race left. *)
Theorem confirmPayload_engine_only
  (c : Collab) (fc : ForkchoiceState) (payloadInfo : PayloadInfo) (updateSafe : bool)
  (l2head : L2BlockRef) (builderWins : bool) (w w1 : world)
  (eenv : option ExecutionPayloadEnvelope) (profit : option Z) :
  gossip w = None ->
  getPayloadWithBuilderPayload c payloadInfo l2head builderWins w
    = Ret ((eenv, None, profit, None), w1) ->
  confirmPayload c fc payloadInfo updateSafe l2head builderWins w
  = match insertPayload c fc updateSafe eenv w1 with
    | Ret ((t, e), w2) => Ret ((eenv, t, e), w2)
    | Panic why => Panic why
    end.
Proof.
  intros Hg Hr. unfold confirmPayload, bind, ret, agossipGet.
  rewrite Hg. cbn -[insertPayload getPayloadWithBuilderPayload].
  rewrite Hr. cbn -[insertPayload].
  destruct (insertPayload c fc updateSafe eenv w1) as [[[t e] w2]|why]; reflexivity.
Qed.

(** X14: [confirmPayload] returns no envelope only after a failed fetch: the
    result is then a temporary error wrapping the fetch error (a nil engine
    envelope without error makes the insertion panic instead). *)
Theorem confirmPayload_nil_envelope_is_fetch_error
  (c : Collab) (fc : ForkchoiceState) (payloadInfo : PayloadInfo) (updateSafe : bool)
  (l2head : L2BlockRef) (builderWins : bool) (w w' : world) (t : BlockInsertionErrType)
  (e : option error) :
  confirmPayload c fc payloadInfo updateSafe l2head builderWins w = Ret ((None, t, e), w') ->
  t = BlockInsertTemporaryErr /\
  exists cause, e = Some (Wrapf "failed to get execution payload: %w" [] cause).
Proof.
  intro H. unfold confirmPayload, bind, ret, agossipGet in H.
  destruct (gossip w) as [cached|]; cbn -[insertPayload getPayloadWithBuilderPayload] in H.
  - insert_case H. discriminate H.
  - destruct (getPayloadWithBuilderPayload c payloadInfo l2head builderWins w)
      as [[[[[eenv benv] p] err] w1]|?]; cbn -[insertPayload] in H; [|discriminate H].
    destruct err as [err|]; cbn -[insertPayload] in H.
    + inversion H; subst. eauto.
    + destruct benv as [benv|]; cbn -[insertPayload] in H.
      * insert_case H. destruct e0 as [e0|]; cbn -[insertPayload] in H.
        -- destruct eenv as [eenv|]; [insert_case H; discriminate H|].
           unfold insertPayload, panicM in H. discriminate H.
        -- discriminate H.
      * destruct eenv as [eenv|]; [insert_case H; discriminate H|].
        unfold insertPayload, panicM in H. discriminate H.
Qed.

(** ** More of the builder client *)

Lemma convertWithdrawals_panic (ws : list (option CapellaWithdrawal)) :
  (exists why, convertWithdrawals ws = Panic why) <-> In None ws.
Proof.
  induction ws as [|[w|] ws IH]; cbn.
  - split; [intros [? H]; discriminate H|intros []].
  - destruct (convertWithdrawals ws) as [l|why].
    + split; [intros [? H]; discriminate H|].
      intros [H|H]; [discriminate H|]. apply IH in H as [? H]; discriminate H.
    + split; [intros _; right; apply IH; eauto|eauto].
  - split; [intros _; left; reflexivity|eauto].
Qed.

Lemma convertWithdrawals_ret (ws : list (option CapellaWithdrawal)) (l : list Withdrawal) :
  convertWithdrawals ws = Ret l ->
  exists ws', ws = map Some ws' /\ l = map convertWithdrawal ws'.
Proof.
  revert l. induction ws as [|[w|] ws IH]; intros l H; cbn in H.
  - inversion H; subst. exists []. split; reflexivity.
  - destruct (convertWithdrawals ws) as [l'|why]; [|discriminate H].
    inversion H; subst. destruct (IH l' eq_refl) as (ws' & -> & ->).
    exists (w :: ws'). split; reflexivity.
  - discriminate H.
Qed.

(** X15: The conversion of a builder response fails with an error exactly when
    the response is not a Deneb one, and the error names the version. *)
Theorem versionedExecutionPayloadToExecutionPayloadEnvelope_error_iff
  (resp : VersionedSubmitBlockRequest) (e : error) :
  versionedExecutionPayloadToExecutionPayloadEnvelope resp = Ret (inr e) <->
  isDeneb (Version resp) = false /\ e = unsupportedVersion (Version resp).
Proof.
  unfold versionedExecutionPayloadToExecutionPayloadEnvelope.
  destruct (isDeneb (Version resp)); cbn.
  - split; [|intros [H _]; discriminate H].
    destruct (Deneb resp) as [d|]; [|discriminate].
    destruct (DenebExecutionPayload_ d) as [p|]; [|discriminate].
    destruct (convertWithdrawals (DWithdrawals p)); [|discriminate].
    destruct (DBaseFeePerGas p); discriminate.
  - split; [intro H; inversion H; subst; split; reflexivity|intros [_ ->]; reflexivity].
Qed.

(** X16: The conversion of a Deneb response panics exactly when a pointer it
    dereferences is nil: the Deneb variant, its execution payload, an entry
    of the withdrawals or the base fee. *)
Theorem versionedExecutionPayloadToExecutionPayloadEnvelope_panics_iff
  (resp : VersionedSubmitBlockRequest) :
  (exists why, versionedExecutionPayloadToExecutionPayloadEnvelope resp = Panic why) <->
  isDeneb (Version resp) = true /\
  (Deneb resp = None \/
   exists d, Deneb resp = Some d /\
     (DenebExecutionPayload_ d = None \/
      exists p, DenebExecutionPayload_ d = Some p /\
        (In None (DWithdrawals p) \/ DBaseFeePerGas p = None))).
Proof.
  unfold versionedExecutionPayloadToExecutionPayloadEnvelope.
  destruct (isDeneb (Version resp)); cbn.
  - split.
    + intros [why H]. split; [reflexivity|].
      destruct (Deneb resp) as [d|]; [right; exists d; split; [reflexivity|]|left; reflexivity].
      destruct (DenebExecutionPayload_ d) as [p|]; [right; exists p; split; [reflexivity|]|left; reflexivity].
      destruct (convertWithdrawals (DWithdrawals p)) eqn:W.
      * right. destruct (DBaseFeePerGas p); [discriminate H|reflexivity].
      * left. apply convertWithdrawals_panic. eauto.
    + intros [_ [->|(d & -> & [->|(p & -> & [Hin|Hb])])]]; eauto.
      * apply convertWithdrawals_panic in Hin as [why W]. rewrite W. eauto.
      * destruct (convertWithdrawals (DWithdrawals p)); [rewrite Hb|]; eauto.
  - split; [intros [? H]; discriminate H|intros [H _]; discriminate H].
Qed.

(** X17: A converted envelope copies the builder payload: hashes, number,
    transactions, base fee and withdrawals (none of them nil), fills in the
    blob gas fields, and leaves the parent beacon block root nil. *)
Theorem versionedExecutionPayloadToExecutionPayloadEnvelope_copies
  (resp : VersionedSubmitBlockRequest) (env : Eth.ExecutionPayloadEnvelope) :
  versionedExecutionPayloadToExecutionPayloadEnvelope resp = Ret (inl env) ->
  exists d p ws fee,
    isDeneb (Version resp) = true /\
    Deneb resp = Some d /\ DenebExecutionPayload_ d = Some p /\
    DWithdrawals p = map Some ws /\ DBaseFeePerGas p = Some fee /\
    let q := Eth.EnvExecutionPayload env in
    Eth.ParentHash q = DParentHash p /\ Eth.BlockHash q = DBlockHash p /\
    Eth.BlockNumber q = DBlockNumber p /\ Eth.Transactions q = DTransactions p /\
    Eth.BaseFeePerGas q = fee /\
    Eth.Withdrawals q = Some (map convertWithdrawal ws) /\
    Eth.BlobGasUsed q = Some (DBlobGasUsed p) /\
    Eth.ExcessBlobGas q = Some (DExcessBlobGas p) /\
    Eth.ParentBeaconBlockRoot env = None.
Proof.
  unfold versionedExecutionPayloadToExecutionPayloadEnvelope.
  destruct (isDeneb (Version resp)) eqn:V; cbn; [|discriminate].
  destruct (Deneb resp) as [d|] eqn:D; [|discriminate].
  destruct (DenebExecutionPayload_ d) as [p|] eqn:P; [|discriminate].
  destruct (convertWithdrawals (DWithdrawals p)) as [l|] eqn:W; [|discriminate].
  destruct (DBaseFeePerGas p) as [fee|] eqn:F; [|discriminate].
  intro H. inversion H; subst.
  destruct (convertWithdrawals_ret _ _ W) as (ws & Hws & ->).
  exists d, p, ws, fee. cbn. repeat split; first [reflexivity|assumption].
Qed.

(** X18: The errors [GetPayload] returns are the transport's, the body read's,
    [errHTTPErrorResponse] on a status other than 200, the decoder's, or an
    unsupported version; the conversion's own error is never reached. *)
Theorem BuilderAPIClient_GetPayload_errors
  (jsonUnmarshal : Data -> VersionedSubmitBlockRequest + error)
  (s : BuilderAPIClient) (ref : L2BlockRef) (e : error) :
  BuilderAPIClient_GetPayload jsonUnmarshal s ref = Ret (inr e) ->
  httpClient s (getPayloadURL ref) acceptJSON = inr e \/
  exists resp, httpClient s (getPayloadURL ref) acceptJSON = inl resp /\
    (Body resp = inr e \/
     exists body, Body resp = inl body /\
       ((StatusCode resp <> StatusOK /\ e = errHTTPErrorResponse) \/
        (StatusCode resp = StatusOK /\
         (jsonUnmarshal body = inr e \/
          exists req, jsonUnmarshal body = inl req /\
            isDeneb (Version req) = false /\ e = unsupportedVersion (Version req))))).
Proof.
  unfold BuilderAPIClient_GetPayload.
  destruct (httpClient s (getPayloadURL ref) acceptJSON) as [resp|err];
    [|intro H; inversion H; subst; left; reflexivity].
  intro H. right. exists resp. split; [reflexivity|].
  destruct (Body resp) as [body|err]; [|inversion H; subst; left; reflexivity].
  right. exists body. split; [reflexivity|].
  destruct (StatusCode resp =? StatusOK)%Z eqn:S; cbn in H.
  - apply Z.eqb_eq in S. right. split; [exact S|].
    destruct (jsonUnmarshal body) as [req|err]; [|inversion H; subst; left; reflexivity].
    right. exists req. split; [reflexivity|].
    destruct (isDeneb (Version req)) eqn:V; cbn in H;
      [|inversion H; subst; split; reflexivity].
    destruct (Deneb req) as [d|]; [|discriminate H].
    destruct (Message d) as [m|]; [|discriminate H].
    destruct (versionedExecutionPayloadToExecutionPayloadEnvelope req) as [[env|err]|why] eqn:C;
      try discriminate H.
    inversion H; subst.
    apply versionedExecutionPayloadToExecutionPayloadEnvelope_error_iff in C as [C _].
    congruence.
  - apply Z.eqb_neq in S. left. inversion H; subst. split; [exact S|reflexivity].
Qed.

(** X19: A response with a status other than 200 is reported as
    [errHTTPErrorResponse] once its body is read, without decoding it. *)
Theorem BuilderAPIClient_GetPayload_non_ok_status
  (jsonUnmarshal : Data -> VersionedSubmitBlockRequest + error)
  (s : BuilderAPIClient) (ref : L2BlockRef) (resp : HttpResponse) (body : Data) :
  httpClient s (getPayloadURL ref) acceptJSON = inl resp ->
  Body resp = inl body ->
  StatusCode resp <> StatusOK ->
  BuilderAPIClient_GetPayload jsonUnmarshal s ref = Ret (inr errHTTPErrorResponse).
Proof.
  intros Hh Hb Hs. unfold BuilderAPIClient_GetPayload. rewrite Hh, Hb.
  apply Z.eqb_neq in Hs. rewrite Hs. reflexivity.
Qed.

(** X20: A payload returned by [GetPayload] comes from a 200 response decoded as
    a Deneb request with a bid; the profit is the bid value, the envelope is
    the conversion of the request, and its parent beacon block root is nil. *)
Theorem BuilderAPIClient_GetPayload_success
  (jsonUnmarshal : Data -> VersionedSubmitBlockRequest + error)
  (s : BuilderAPIClient) (ref : L2BlockRef) (env : Eth.ExecutionPayloadEnvelope) (profit : Z) :
  BuilderAPIClient_GetPayload jsonUnmarshal s ref = Ret (inl (env, profit)) ->
  exists resp body req d m,
    httpClient s (getPayloadURL ref) acceptJSON = inl resp /\
    StatusCode resp = StatusOK /\ Body resp = inl body /\
    jsonUnmarshal body = inl req /\ isDeneb (Version req) = true /\
    Deneb req = Some d /\ Message d = Some m /\ profit = BidValue m /\
    versionedExecutionPayloadToExecutionPayloadEnvelope req = Ret (inl env) /\
    Eth.ParentBeaconBlockRoot env = None.
Proof.
  unfold BuilderAPIClient_GetPayload.
  destruct (httpClient s (getPayloadURL ref) acceptJSON) as [resp|err] eqn:Hh; [|discriminate].
  destruct (Body resp) as [body|err] eqn:Hb; [|discriminate].
  destruct (StatusCode resp =? StatusOK)%Z eqn:S; cbn; [|discriminate].
  destruct (jsonUnmarshal body) as [req|err] eqn:Hj; [|discriminate].
  destruct (isDeneb (Version req)) eqn:V; cbn; [|discriminate].
  destruct (Deneb req) as [d|] eqn:D; [|discriminate].
  destruct (Message d) as [m|] eqn:Hm; [|discriminate].
  destruct (versionedExecutionPayloadToExecutionPayloadEnvelope req) as [[env'|err]|why] eqn:C;
    try discriminate.
  intro H. inversion H; subst.
  apply Z.eqb_eq in S.
  exists resp, body, req, d, m. do 9 (split; [first [reflexivity|assumption]|]).
  destruct (versionedExecutionPayloadToExecutionPayloadEnvelope_copies _ _ C)
    as (d' & p & ws & fee & _ & _ & _ & _ & _ & Hq).
  cbn in Hq. tauto.
Qed.

(** ** Witnesses *)

Lemma sanityCheckPayload_accepts_iff_witness :
  validTransactions [[Byte.x7e]; [Byte.x02]] = true /\
  sanityCheckPayload (payloadWith [[Byte.x7e]; [Byte.x02]]) = Ret None.
Proof.
  split; [reflexivity|].
  apply (proj1 sanityCheckPayload_accepts_iff). reflexivity.
Defined.

Lemma insertPayload_invalid_status_clears_gossip_witness :
  (exists err w', insertPayload (engineWith None ExecutionInvalid fcuValid false)
                    fc0 false (Some engineEnvelope0) w0
                  = Ret ((BlockInsertPayloadErr, Some err), w') /\ gossip w' = None) /\
  (exists err w', insertPayload (engineWith None ExecutionSyncing fcuValid false)
                    fc0 false (Some engineEnvelope0) w0
                  = Ret ((BlockInsertTemporaryErr, Some err), w') /\
                  gossip w' = Some engineEnvelope0).
Proof.
  split.
  - apply (proj1 (insertPayload_invalid_status_clears_gossip
                    (engineWith None ExecutionInvalid fcuValid false) fc0 false
                    engineEnvelope0 w0 (mkPayloadStatus ExecutionInvalid None)
                    ltac:(reflexivity) ltac:(reflexivity) ltac:(reflexivity))).
    left; reflexivity.
  - apply (proj2 (insertPayload_invalid_status_clears_gossip
                    (engineWith None ExecutionSyncing fcuValid false) fc0 false
                    engineEnvelope0 w0 (mkPayloadStatus ExecutionSyncing None)
                    ltac:(reflexivity) ltac:(reflexivity) ltac:(reflexivity)));
      discriminate.
Defined.

Lemma insertPayload_commit_failure_temporary_witness :
  exists e, insertPayload (engineWith (Some (ErrorNew "conductor unreachable"))
                             ExecutionValid fcuValid false)
              fc0 false (Some engineEnvelope0) w0
            = Ret ((BlockInsertTemporaryErr, Some e),
                   mkWorld (gossip w0) (EvCommitUnsafePayload engineEnvelope0 :: trace w0)) /\
            isEngineCall (EvCommitUnsafePayload engineEnvelope0) = false.
Proof.
  apply (insertPayload_commit_failure_temporary
           (engineWith (Some (ErrorNew "conductor unreachable")) ExecutionValid fcuValid false)
           fc0 false engineEnvelope0 w0 (ErrorNew "conductor unreachable"));
    reflexivity.
Defined.

Lemma insertPayload_post_build_input_error_clears_gossip_witness :
  exists t e w', insertPayload (fcuErrorEngine InvalidForkchoiceState) fc0 false
                   (Some engineEnvelope0) w0 = Ret ((t, Some e), w') /\
                 gossip w' = None /\
                 (InvalidForkchoiceState = InvalidForkchoiceState -> t = BlockInsertPayloadErr).
Proof.
  apply (insertPayload_post_build_input_error_clears_gossip
           (fcuErrorEngine InvalidForkchoiceState) fc0 false engineEnvelope0 w0
           (mkPayloadStatus ExecutionValid None)
           (InputError InvalidForkchoiceState (ErrorNew "forkchoice rejected"))
           InvalidForkchoiceState (ErrorNew "forkchoice rejected"));
    reflexivity.
Defined.

Lemma forkchoice_unknown_code_prestate_witness :
  (exists e w', startPayload (fcuErrorEngine (-32000)) fc0 attrs0 w0
                = Ret ((0%Z, BlockInsertPrestateErr, Some e), w')) /\
  (exists e w', insertPayload (fcuErrorEngine (-32000)) fc0 false (Some engineEnvelope0) w0
                = Ret ((BlockInsertPrestateErr, Some e), w') /\ gossip w' = None) /\
  (BlockInsertPrestateErr = BlockInsertTemporaryErr <->
   asInputError (InputError (-32000) (ErrorNew "forkchoice rejected")) = None) /\
  (BlockInsertTemporaryErr = BlockInsertTemporaryErr <->
   asInputError (ErrorNew "connection refused") = None).
Proof.
  split; [|split; [|split]].
  - apply (proj1 forkchoice_unknown_code_prestate (fcuErrorEngine (-32000)) fc0 attrs0 w0
             (InputError (-32000) (ErrorNew "forkchoice rejected")) (-32000)%Z
             (ErrorNew "forkchoice rejected"));
      first [reflexivity | unfold InvalidForkchoiceState, InvalidPayloadAttributes; lia].
  - apply (proj1 (proj2 forkchoice_unknown_code_prestate) (fcuErrorEngine (-32000)) fc0 false
             engineEnvelope0 w0 (mkPayloadStatus ExecutionValid None)
             (InputError (-32000) (ErrorNew "forkchoice rejected")) (-32000)%Z
             (ErrorNew "forkchoice rejected"));
      first [reflexivity | unfold InvalidForkchoiceState, InvalidPayloadAttributes; lia].
  - apply (proj1 (proj2 (proj2 forkchoice_unknown_code_prestate)) (fcuErrorEngine (-32000))
             fc0 attrs0 w0 (InputError (-32000) (ErrorNew "forkchoice rejected")) 0%Z
             BlockInsertPrestateErr
             (Some (Wrapf "unexpected error code in forkchoice-updated response: %w" []
                      (InputError (-32000) (ErrorNew "forkchoice rejected"))))
             (mkWorld None [EvForkchoiceUpdate fc0 (Some attrs0)]));
      reflexivity.
  - apply (proj2 (proj2 (proj2 forkchoice_unknown_code_prestate)) fcuTransportEngine fc0 false
             engineEnvelope0 w0 (mkPayloadStatus ExecutionValid None)
             (ErrorNew "connection refused") BlockInsertTemporaryErr
             (Some (Wrapf "failed to make the new L2 block canonical via forkchoice: %w" []
                      (ErrorNew "connection refused")))
             (mkWorld (Some engineEnvelope0)
                (EvForkchoiceUpdate (postBuildForkchoice fc0 (EnvExecutionPayload engineEnvelope0) false) None
                 :: traceAfterNewPayload engineEnvelope0 w0)));
      vm_compute; reflexivity.
Defined.

Lemma getPayloadWithBuilderPayload_beacon_root_backfill_witness :
  exists e benv0 p,
    Some engineEnvelope0 = Some e /\
    BuilderGetPayload (engineWith None ExecutionValid fcuValid true) (trace w0) head0
      = inl (benv0, p) /\
    EnvExecutionPayload builderEnvelopeFilled0 = EnvExecutionPayload benv0 /\
    ParentBeaconBlockRoot builderEnvelopeFilled0 = ParentBeaconBlockRoot e.
Proof.
  apply (getPayloadWithBuilderPayload_beacon_root_backfill
           (engineWith None ExecutionValid fcuValid true) info0 head0 true w0 raceWorld0
           (Some engineEnvelope0) builderEnvelopeFilled0 (Some 7%Z) None).
  reflexivity.
Defined.

Lemma insertion_ok_iff_nil_error_witness :
  (exists id t e w', startPayload (engineWith None ExecutionValid fcuValid false) fc0 attrs0 w0
                     = Ret ((id, t, e), w') /\ (t = BlockInsertOK <-> e = None)) /\
  (exists t e w', insertPayload (engineWith None ExecutionValid fcuValid false) fc0 false
                    (Some engineEnvelope0) w0 = Ret ((t, e), w') /\
                  (t = BlockInsertOK <-> e = None)) /\
  (exists out t e w', confirmPayload (engineWith None ExecutionValid fcuValid false) fc0 info0
                        false head0 false w0 = Ret ((out, t, e), w') /\
                      (t = BlockInsertOK <-> e = None)).
Proof.
  split; [|split].
  - do 4 eexists; split; [cbv; reflexivity|].
    eapply (proj1 insertion_ok_iff_nil_error (engineWith None ExecutionValid fcuValid false)
              fc0 attrs0 w0). cbv; reflexivity.
  - do 3 eexists; split; [cbv; reflexivity|].
    eapply (proj1 (proj2 insertion_ok_iff_nil_error) (engineWith None ExecutionValid fcuValid false)
              fc0 false (Some engineEnvelope0) w0). cbv; reflexivity.
  - do 4 eexists; split; [cbv; reflexivity|].
    eapply (proj2 (proj2 insertion_ok_iff_nil_error) (engineWith None ExecutionValid fcuValid false)
              fc0 info0 false head0 false w0). cbv; reflexivity.
Defined.

Lemma confirmPayload_builder_fallback_witness :
  confirmPayload (engineWith None ExecutionValid fcuValid true) fc0 info0 false head0 true w0
  = match insertPayload (engineWith None ExecutionValid fcuValid true) fc0 false
            (Some engineEnvelope0) raceWorld0 with
    | Ret ((t', e'), w3) => Ret ((Some engineEnvelope0, t', e'), w3)
    | Panic why => Panic why
    end.
Proof.
  apply (proj1 (confirmPayload_builder_fallback
                  (engineWith None ExecutionValid fcuValid true) fc0 info0 false head0 true
                  w0 raceWorld0 engineEnvelope0 builderEnvelopeFilled0 (Some 7%Z)
                  ltac:(reflexivity) ltac:(reflexivity))
           BlockInsertPayloadErr
           (Errorf "first transaction was not deposit tx. Got %v" [2%Z]) raceWorld0).
  reflexivity.
Defined.

Lemma lastDeposit_leading_deposits_witness :
  lastDeposit [[Byte.x7e]; [Byte.x7e]; [Byte.x02]] = inl 1%nat /\
  lastDeposit [[Byte.x7e]; []; [Byte.x02]] = inr (Errorf "invalid transaction at idx %d" [1%Z]).
Proof.
  split.
  - apply (proj1 (lastDeposit_leading_deposits [[Byte.x7e]; [Byte.x7e]] [[Byte.x02]]
                    ltac:(reflexivity))).
    + discriminate.
    + right. exists [Byte.x02], []. split; [reflexivity|split; reflexivity].
  - apply (proj2 (lastDeposit_leading_deposits [[Byte.x7e]] [] ltac:(reflexivity)) [[Byte.x02]]).
Defined.

Lemma sanityCheckPayload_reports_first_misplaced_deposit_witness :
  sanityCheckPayload (payloadWith [[Byte.x7e]; [Byte.x02]; [Byte.x7e]]) =
  Ret (Some (Errorf "deposit tx (%d) after other tx in l2 block with prev deposit at idx %d"
               [2%Z; 0%Z])).
Proof.
  apply (sanityCheckPayload_reports_first_misplaced_deposit
           (payloadWith [[Byte.x7e]; [Byte.x02]; [Byte.x7e]]) [[Byte.x7e]] [[Byte.x02]]
           [Byte.x7e] []); first [reflexivity | discriminate].
Defined.

Lemma startPayload_ok_exactly_on_valid_id_witness :
  startPayload (engineWith None ExecutionValid fcuValid false) fc0 attrs0 w0
    = Ret ((5%Z, BlockInsertOK, None), mkWorld None [EvForkchoiceUpdate fc0 (Some attrs0)]) /\
  exists res, ForkchoiceUpdate (engineWith None ExecutionValid fcuValid false) (trace w0) fc0
                (Some attrs0) = inl res /\
              Status (PayloadStatus res) = ExecutionValid /\ FcPayloadID res = Some 5%Z.
Proof.
  split; [reflexivity|].
  apply (proj1 (proj1 (startPayload_ok_exactly_on_valid_id
                         (engineWith None ExecutionValid fcuValid false) fc0 attrs0 w0 5%Z
                         BlockInsertOK None (mkWorld None [EvForkchoiceUpdate fc0 (Some attrs0)])
                         ltac:(reflexivity)))).
  reflexivity.
Defined.

Lemma insertPayload_sanity_failure_no_effect_witness :
  sanityCheckPayload (EnvExecutionPayload builderEnvelope0)
    = Ret (Some (Errorf "first transaction was not deposit tx. Got %v" [2%Z])) /\
  insertPayload (engineWith None ExecutionValid fcuValid false) fc0 false (Some builderEnvelope0) w0
  = Ret ((BlockInsertPayloadErr, Some (Errorf "first transaction was not deposit tx. Got %v" [2%Z])),
         w0).
Proof.
  split; [reflexivity|].
  apply insertPayload_sanity_failure_no_effect. reflexivity.
Defined.

Lemma insertPayload_ok_effects_witness :
  insertPayload (engineWith None ExecutionValid fcuValid false) fc0 true (Some engineEnvelope0) w0
    = Ret ((BlockInsertOK, None),
           mkWorld None [EvForkchoiceUpdate (postBuildForkchoice fc0 (EnvExecutionPayload engineEnvelope0) true) None;
                         EvNewPayload (EnvExecutionPayload engineEnvelope0) (Some 9%Z);
                         EvCommitUnsafePayload engineEnvelope0]) /\
  SafeBlockHash (postBuildForkchoice fc0 (EnvExecutionPayload engineEnvelope0) true)
    = BlockHash (EnvExecutionPayload engineEnvelope0).
Proof.
  split; [vm_compute; reflexivity|].
  apply (proj1 (proj2 (proj2 (proj2 (insertPayload_ok_effects
     (engineWith None ExecutionValid fcuValid false) fc0 true engineEnvelope0 w0 None
     (mkWorld None [EvForkchoiceUpdate (postBuildForkchoice fc0 (EnvExecutionPayload engineEnvelope0) true) None;
                    EvNewPayload (EnvExecutionPayload engineEnvelope0) (Some 9%Z);
                    EvCommitUnsafePayload engineEnvelope0])
     ltac:(vm_compute; reflexivity)))))).
Defined.

Lemma insertPayload_gossip_after_commit_witness :
  insertPayload (engineWith None ExecutionSyncing fcuValid false) fc0 false (Some engineEnvelope0) w0
    = Ret ((BlockInsertTemporaryErr,
            Some (NewPayloadErr (EnvExecutionPayload engineEnvelope0)
                    (mkPayloadStatus ExecutionSyncing None))),
           mkWorld (Some engineEnvelope0) (traceAfterNewPayload engineEnvelope0 w0)) /\
  gossip (mkWorld (Some engineEnvelope0) (traceAfterNewPayload engineEnvelope0 w0))
    = Some engineEnvelope0.
Proof.
  split; [vm_compute; reflexivity|].
  apply (insertPayload_gossip_after_commit (engineWith None ExecutionSyncing fcuValid false)
           fc0 false engineEnvelope0 w0 BlockInsertTemporaryErr
           (Some (NewPayloadErr (EnvExecutionPayload engineEnvelope0)
                    (mkPayloadStatus ExecutionSyncing None))));
    vm_compute; reflexivity.
Defined.

Lemma insertPayload_commit_precedes_engine_witness :
  insertPayload (engineWith (Some (ErrorNew "conductor unreachable")) ExecutionValid fcuValid false)
    fc0 false (Some engineEnvelope0) w0
    = Ret ((BlockInsertTemporaryErr,
            Some (Wrapf "failed to commit unsafe payload to conductor: %w" []
                    (ErrorNew "conductor unreachable"))),
           mkWorld None [EvCommitUnsafePayload engineEnvelope0]) /\
  exists new, [EvCommitUnsafePayload engineEnvelope0] = (new ++ [])%list /\
    (new = [] \/
     exists pre, new = (pre ++ [EvCommitUnsafePayload engineEnvelope0])%list /\
       (pre <> [] -> Some (ErrorNew "conductor unreachable") = None)).
Proof.
  split; [vm_compute; reflexivity|].
  apply (insertPayload_commit_precedes_engine
           (engineWith (Some (ErrorNew "conductor unreachable")) ExecutionValid fcuValid false)
           fc0 false engineEnvelope0 w0 BlockInsertTemporaryErr
           (Some (Wrapf "failed to commit unsafe payload to conductor: %w" []
                    (ErrorNew "conductor unreachable")))
           (mkWorld None [EvCommitUnsafePayload engineEnvelope0])).
  vm_compute; reflexivity.
Defined.

Lemma getPayloadWithBuilderPayload_builder_disabled_witness :
  BuilderEnabled (engineWith None ExecutionValid fcuValid false) = false /\
  getPayloadWithBuilderPayload (engineWith None ExecutionValid fcuValid false) info0 head0 true w0
  = Ret ((Some engineEnvelope0, None, None, None), mkWorld None [EvGetPayload info0]).
Proof.
  split; [reflexivity|].
  apply getPayloadWithBuilderPayload_builder_disabled. reflexivity.
Defined.

Lemma getPayloadWithBuilderPayload_engine_result_witness :
  getPayloadWithBuilderPayload (engineWith None ExecutionValid fcuValid true) info0 head0 true w0
    = Ret ((Some engineEnvelope0, Some builderEnvelopeFilled0, Some 7%Z, None), raceWorld0) /\
  GetPayload (engineWith None ExecutionValid fcuValid true) [EvBuilderGetPayload head0] info0
    = (Some engineEnvelope0, None) /\
  trace raceWorld0 = [EvGetPayload info0; EvBuilderGetPayload head0].
Proof.
  split; [reflexivity|].
  destruct (getPayloadWithBuilderPayload_engine_result
              (engineWith None ExecutionValid fcuValid true) info0 head0 true w0 raceWorld0
              (Some engineEnvelope0) (Some builderEnvelopeFilled0) (Some 7%Z) None
              ltac:(reflexivity)) as (HG & _ & HT & _).
  split; [exact HG|exact HT].
Defined.

Lemma confirmPayload_cached_envelope_witness :
  gossip (mkWorld (Some engineEnvelope0) []) = Some engineEnvelope0 /\
  confirmPayload (engineWith None ExecutionValid fcuValid true) fc0 info0 false head0 true
    (mkWorld (Some engineEnvelope0) [])
  = match insertPayload (engineWith None ExecutionValid fcuValid true) fc0 false
            (Some engineEnvelope0) (mkWorld (Some engineEnvelope0) []) with
    | Ret ((t, e), w') => Ret ((Some engineEnvelope0, t, e), w')
    | Panic why => Panic why
    end.
Proof.
  split; [reflexivity|].
  apply confirmPayload_cached_envelope. reflexivity.
Defined.

Lemma confirmPayload_fetch_error_witness :
  getPayloadWithBuilderPayload engineFetchFails info0 head0 false w0
    = Ret ((None, None, None, Some (ErrorNew "unknown payload")), raceWorld0) /\
  confirmPayload engineFetchFails fc0 info0 false head0 false w0
  = Ret ((None, BlockInsertTemporaryErr,
          Some (Wrapf "failed to get execution payload: %w" [] (ErrorNew "unknown payload"))),
         raceWorld0).
Proof.
  split; [reflexivity|].
  apply (confirmPayload_fetch_error engineFetchFails fc0 info0 false head0 false w0 raceWorld0
           None None None (ErrorNew "unknown payload")); reflexivity.
Defined.

Lemma confirmPayload_engine_only_witness :
  getPayloadWithBuilderPayload (engineWith None ExecutionValid fcuValid true) info0 head0 false w0
    = Ret ((Some engineEnvelope0, None, None, None), raceWorld0) /\
  confirmPayload (engineWith None ExecutionValid fcuValid true) fc0 info0 false head0 false w0
  = match insertPayload (engineWith None ExecutionValid fcuValid true) fc0 false
            (Some engineEnvelope0) raceWorld0 with
    | Ret ((t, e), w2) => Ret ((Some engineEnvelope0, t, e), w2)
    | Panic why => Panic why
    end.
Proof.
  split; [reflexivity|].
  apply (confirmPayload_engine_only (engineWith None ExecutionValid fcuValid true) fc0 info0
           false head0 false w0 raceWorld0 (Some engineEnvelope0) None); reflexivity.
Defined.

Lemma confirmPayload_nil_envelope_is_fetch_error_witness :
  confirmPayload engineFetchFails fc0 info0 false head0 false w0
    = Ret ((None, BlockInsertTemporaryErr,
            Some (Wrapf "failed to get execution payload: %w" [] (ErrorNew "unknown payload"))),
           raceWorld0) /\
  exists cause,
    Some (Wrapf "failed to get execution payload: %w" [] (ErrorNew "unknown payload"))
    = Some (Wrapf "failed to get execution payload: %w" [] cause).
Proof.
  split; [reflexivity|].
  apply (proj2 (confirmPayload_nil_envelope_is_fetch_error engineFetchFails fc0 info0 false
                  head0 false w0 raceWorld0 BlockInsertTemporaryErr
                  (Some (Wrapf "failed to get execution payload: %w" [] (ErrorNew "unknown payload")))
                  ltac:(reflexivity))).
Defined.

Lemma versionedExecutionPayloadToExecutionPayloadEnvelope_copies_witness :
  exists env,
    versionedExecutionPayloadToExecutionPayloadEnvelope denebRequest0 = Ret (inl env) /\
    Eth.Transactions (Eth.EnvExecutionPayload env) = [[Byte.x7e]] /\
    Eth.ParentBeaconBlockRoot env = None.
Proof.
  assert (H : exists env, versionedExecutionPayloadToExecutionPayloadEnvelope denebRequest0
                          = Ret (inl env)) by (eexists; reflexivity).
  destruct H as [env H]. exists env. split; [exact H|].
  destruct (versionedExecutionPayloadToExecutionPayloadEnvelope_copies denebRequest0 env H)
    as (d & p & ws & fee & _ & Hd & Hp & _ & _ & Hq).
  cbn in Hq, Hd. injection Hd as <-. cbn in Hp. injection Hp as <-.
  cbn in Hq. tauto.
Defined.

Lemma BuilderAPIClient_GetPayload_errors_witness :
  BuilderAPIClient_GetPayload (unmarshalAs capellaRequest0) (builderClient0 200) head0
    = Ret (inr (unsupportedVersion DataVersionCapella)) /\
  (httpClient (builderClient0 200) (getPayloadURL head0) acceptJSON
     = inr (unsupportedVersion DataVersionCapella) \/
   exists resp, httpClient (builderClient0 200) (getPayloadURL head0) acceptJSON = inl resp /\
    (Body resp = inr (unsupportedVersion DataVersionCapella) \/
     exists body, Body resp = inl body /\
       ((StatusCode resp <> StatusOK /\ unsupportedVersion DataVersionCapella = errHTTPErrorResponse) \/
        (StatusCode resp = StatusOK /\
         (unmarshalAs capellaRequest0 body = inr (unsupportedVersion DataVersionCapella) \/
          exists req, unmarshalAs capellaRequest0 body = inl req /\
            isDeneb (Version req) = false /\
            unsupportedVersion DataVersionCapella = unsupportedVersion (Version req)))))).
Proof.
  split; [reflexivity|].
  apply BuilderAPIClient_GetPayload_errors. reflexivity.
Defined.

Lemma BuilderAPIClient_GetPayload_non_ok_status_witness :
  httpClient (builderClient0 500) (getPayloadURL head0) acceptJSON
    = inl (mkHttpResponse 500 (inl [Byte.x7b])) /\
  BuilderAPIClient_GetPayload (unmarshalAs denebRequest0) (builderClient0 500) head0
    = Ret (inr errHTTPErrorResponse).
Proof.
  split; [reflexivity|].
  apply (BuilderAPIClient_GetPayload_non_ok_status (unmarshalAs denebRequest0) (builderClient0 500)
           head0 (mkHttpResponse 500 (inl [Byte.x7b])) [Byte.x7b]);
    first [reflexivity | unfold StatusOK; cbn; lia].
Defined.

Lemma BuilderAPIClient_GetPayload_success_witness :
  exists env,
    BuilderAPIClient_GetPayload (unmarshalAs denebRequest0) (builderClient0 200) head0
      = Ret (inl (env, 7%Z)) /\
    Eth.ParentBeaconBlockRoot env = None.
Proof.
  assert (H : exists env, BuilderAPIClient_GetPayload (unmarshalAs denebRequest0)
                            (builderClient0 200) head0 = Ret (inl (env, 7%Z)))
    by (eexists; reflexivity).
  destruct H as [env H]. exists env. split; [exact H|].
  destruct (BuilderAPIClient_GetPayload_success _ _ _ env 7%Z H)
    as (resp & body & req & d & m & _ & _ & _ & _ & _ & _ & _ & _ & _ & Hb).
  exact Hb.
Defined.

